(** * Custom multi-hop query notebook and workspace configuration

    A shallow embedding of the two artefacts of the repository slice:

    - [docs/howtos/customizations/testgenerator/testgen-customisation.ipynb],
      whose one piece of authored logic is the method
      [MyMultiHopQuery._generate_scenarios];
    - [workspace.toml], the tool configuration of the monorepo.

    The method runs in a small state-and-exception monad: the state is the
    external world (the language model and the random generator behind the
    library calls) together with a log of the persona-matching prompt calls;
    an exception aborts the run, as no handler is installed anywhere.

    The operations of the [ragas] package the notebook calls are not part of
    the sources; they are the fields of the class [External]. *)

From Stdlib Require Import ZArith String List.
From stdpp Require Import gmap strings list.

Local Open Scope string_scope.
Local Open Scope list_scope.
Local Open Scope Z_scope.

(** ** Python primitives used by the notebook *)

Module Py.

(** [a // b] on integers: floor division, [ZeroDivisionError] (here [None])
    on a zero divisor. *)
Definition floordiv (a b : Z) : option Z :=
  if b =? 0 then None else Some (Z.div a b).

(** [max(a, b)] on integers: the first argument unless the second is
    strictly greater. *)
Definition max (a b : Z) : Z := if a <? b then b else a.

(** [len(l)]. *)
Definition len {A} (l : list A) : Z := Z.of_nat (length l).

(** Truth value of a list: non-empty. *)
Definition truthy {A} (l : list A) : bool :=
  match l with [] => false | _ :: _ => true end.

Definition mem (k : string) (seen : list string) : bool :=
  existsb (String.eqb k) seen.

(** [list(dict(items).keys())]: the distinct first components, in the order
    of their first occurrence. [seen] are the keys already inserted. *)
Fixpoint dict_keys_from (seen : list string) (items : list (string * string))
  : list string :=
  match items with
  | [] => []
  | (k, _) :: rest =>
      if mem k seen then dict_keys_from seen rest
      else k :: dict_keys_from (k :: seen) rest
  end.

Definition dict_keys (items : list (string * string)) : list string :=
  dict_keys_from [] items.

(** [list(item)] of a pair. *)
Definition list_of_pair (item : string * string) : list string :=
  [item.1; item.2].

(** [l[i]] on a list: a negative index counts from the end; out of range is
    [IndexError] (here [None]). *)
Definition index {A} (l : list A) (i : Z) : option A :=
  let j := if i <? 0 then i + len l else i in
  if (j <? 0) || (len l <=? j) then None else l !! Z.to_nat j.

End Py.

(** ** Data shapes of the library, as the notebook uses them *)

Inductive NodeType := DOCUMENT | CHUNK | UNKNOWN.

Record Node := {
  node_id : N;
  node_type : NodeType;
  node_properties : gmap string (list string)
}.

(** The relationship builder stores under ["overlapped_items"] a list of
    pairs of keyphrases; the notebook reads no other relationship property. *)
Record Relationship := {
  rel_source : Node;
  rel_target : Node;
  rel_type : string;
  rel_properties : gmap string (list (string * string))
}.

Record KnowledgeGraph := {
  nodes : list Node;
  relationships : list Relationship
}.

Definition Triplet : Type := Node * Relationship * Node.

Record Persona := {
  name : string;
  role_description : string
}.

Record ThemesPersonasInput := {
  themes : list string;
  personas : list Persona
}.

Record PersonaThemesMapping := {
  mapping : list (string * list string)
}.

Inductive QueryStyle := MISSPELLED | PERFECT_GRAMMAR | POOR_GRAMMAR | WEB_SEARCH_LIKE.
Inductive QueryLength := LONG | MEDIUM | SHORT.

(** One entry of the list [prepare_combinations] returns. *)
Record Combination := {
  combination : list string;
  comb_personas : list Persona;
  comb_nodes : list Node;
  comb_styles : list QueryStyle;
  comb_lengths : list QueryLength
}.

Record MultiHopScenario := {
  sc_nodes : list Node;
  sc_combinations : list string;
  sc_style : QueryStyle;
  sc_length : QueryLength;
  sc_persona : Persona
}.

(** ** The library operations the notebook calls *)

(** The signature of the part of [ragas] that [_generate_scenarios] calls.
    [Ext] is the state those calls read and change (the language model
    service, the random generator); a call that raises returns a
    [LibError]. *)
Class External := {
  LLM : Type;
  Callbacks : Type;
  LibError : Type;
  Ext : Type;
  (** [KnowledgeGraph.find_two_nodes_single_rel(relationship_condition=...)] *)
  find_two_nodes_single_rel :
    KnowledgeGraph -> (Relationship -> bool) -> list Triplet;
  (** [ThemesPersonasMatchingPrompt.generate(data=..., llm=..., callbacks=...)] *)
  generate :
    ThemesPersonasInput -> LLM -> Callbacks ->
    Ext -> (LibError + PersonaThemesMapping) * Ext;
  (** [MultiHopQuerySynthesizer.prepare_combinations] *)
  prepare_combinations :
    list Node -> list (list string) -> list Persona ->
    list (string * list string) -> string -> LibError + list Combination;
  (** [MultiHopQuerySynthesizer.sample_diverse_combinations] *)
  sample_diverse_combinations :
    list Combination -> Z -> Ext -> (LibError + list MultiHopScenario) * Ext
}.

(** What the notebook relies on from two of these operations. *)
Class ExternalLaws (X : External) : Prop := {
  (** The query returns only triplets built on a relationship of the graph
      that satisfies the condition, with that relationship's type and
      properties. *)
  find_sound : forall g cond a r b,
    In (a, r, b) (find_two_nodes_single_rel g cond) ->
    exists r0, In r0 (relationships g) /\ cond r0 = true /\
               rel_type r = rel_type r0 /\ rel_properties r = rel_properties r0;
  (** Sampling returns at most the number of samples asked for. *)
  sample_bounded : forall data k e l e',
    1 <= k ->
    sample_diverse_combinations data k e = (inr l, e') ->
    Py.len l <= k
}.

(** ** Exceptions, world and the run monad *)

Inductive Exception {X : External} :=
| ZeroDivisionError
| KeyError (key : string)
| LibraryError (e : LibError).

(** Where an exception is raised: by an operator or a subscript of the
    method's own body, or inside a call into the library. *)
Definition raised_in_library {X : External} (e : Exception) : bool :=
  match e with
  | LibraryError _ => true
  | ZeroDivisionError | KeyError _ => false
  end.

Record World {X : External} := {
  ext : Ext;
  prompt_calls : list ThemesPersonasInput
}.

Definition Run {X : External} (A : Type) : Type :=
  World -> (Exception + A) * World.

Definition ret {X : External} {A} (a : A) : Run A := fun w => (inr a, w).

Definition raise {X : External} {A} (e : Exception) : Run A := fun w => (inl e, w).

Definition bind {X : External} {A B} (m : Run A) (k : A -> Run B) : Run B :=
  fun w =>
    match m w with
    | (inr a, w') => k a w'
    | (inl e, w') => (inl e, w')
    end.

Declare Scope run_scope.
Delimit Scope run_scope with run.
Notation "x <- m ;; k" := (bind m (fun x => k))
  (at level 100, m at next level, right associativity) : run_scope.

(** A library call that touches the external state. *)
Definition call {X : External} {A} (f : Ext -> (LibError + A) * Ext) : Run A :=
  fun w =>
    match f (ext w) with
    | (inr a, e') => (inr a, {| ext := e'; prompt_calls := prompt_calls w |})
    | (inl err, e') =>
        (inl (LibraryError err), {| ext := e'; prompt_calls := prompt_calls w |})
    end.

(** A library call that does not. *)
Definition call_pure {X : External} {A} (r : LibError + A) : Run A :=
  match r with
  | inr a => ret a
  | inl err => raise (LibraryError err)
  end.

(** [d[key]] on a dict. *)
Definition getitem {X : External} {V} (d : gmap string V) (key : string) : Run V :=
  match d !! key with
  | Some v => ret v
  | None => raise (KeyError key)
  end.

(** ** The notebook's synthesizer *)

Module MyMultiHopQuery.
Section WithLibrary.
Context {X : External}.

(** The notebook's module-level names a method body can read. *)
Record Globals := { kg : KnowledgeGraph }.

(** The fields of the synthesizer the method reads. *)
Record Self := { llm : LLM }.

(** [lambda rel: (True if rel.type == "keyphrases_overlap" else False)] *)
Definition relationship_condition (rel : Relationship) : bool :=
  if String.eqb (rel_type rel) "keyphrases_overlap" then true else false.

(** [await self.theme_persona_matching_prompt.generate(data=..., llm=...,
    callbacks=...)]; every invocation is appended to [prompt_calls]. *)
Definition await_generate (data : ThemesPersonasInput) (l : LLM) (cb : Callbacks)
  : Run PersonaThemesMapping :=
  fun w =>
    call (generate data l cb)
         {| ext := ext w; prompt_calls := prompt_calls w ++ [data] |}.

(** [max(1, n // len(results))] *)
Definition num_sample_per_triplet (n : Z) (results : list Triplet) : Run Z :=
  match Py.floordiv n (Py.len results) with
  | Some q => ret (Py.max 1 q)
  | None => raise ZeroDivisionError
  end.

(** The body of [for triplet in results:]; [scenarios] is the list built so
    far, the result is the list after this iteration. *)
Definition loop_body (self : Self) (n : Z) (persona_list : list Persona)
    (callbacks : Callbacks) (num_sample_per_triplet : Z)
    (scenarios : list MultiHopScenario) (triplet : Triplet)
  : Run (list MultiHopScenario) :=
  if Py.len scenarios <? n then
    let '(node_a, rel, node_b) := triplet in
    (overlapped_keywords <- getitem (rel_properties rel) "overlapped_items" ;;
     if Py.truthy overlapped_keywords then
       let themes := Py.dict_keys overlapped_keywords in
       let prompt_input := {| themes := themes; personas := persona_list |} in
       persona_concepts <- await_generate prompt_input (llm self) callbacks ;;
       let overlapped_keywords := map Py.list_of_pair overlapped_keywords in
       base_scenarios <-
         call_pure (prepare_combinations [node_a; node_b] overlapped_keywords
                      persona_list (mapping persona_concepts) "keyphrases") ;;
       base_scenarios <-
         call (sample_diverse_combinations base_scenarios num_sample_per_triplet) ;;
       ret (scenarios ++ base_scenarios)
     else ret scenarios)%run
  else ret scenarios.

(** The prompt input the body builds for a triplet: none when the
    ["overlapped_items"] property is missing or empty. *)
Definition prompt_input_of (persona_list : list Persona) (triplet : Triplet)
  : option ThemesPersonasInput :=
  match rel_properties triplet.1.2 !! "overlapped_items" with
  | Some (item :: items) =>
      Some {| themes := Py.dict_keys (item :: items); personas := persona_list |}
  | _ => None
  end.

(** The world after the prompt call of an iteration that reaches it. *)
Definition asked (w : World) (data : ThemesPersonasInput) (e : Ext) : World :=
  {| ext := e; prompt_calls := prompt_calls w ++ [data] |}.

(** [err] is what one of the three library calls of the body returned as
    its failure. *)
Definition library_raised (self : Self) (callbacks : Callbacks) (err : LibError)
  : Prop :=
  (exists data e e', generate data (llm self) callbacks e = (inl err, e')) \/
  (exists ns combos ps m prop, prepare_combinations ns combos ps m prop = inl err) \/
  (exists data k e e', sample_diverse_combinations data k e = (inl err, e')).

(** The failures of one iteration, read off the calls it makes. An iteration
    reached with fewer than [n] scenarios raises: the [KeyError] of the
    subscript when the relationship has no ["overlapped_items"], the world
    as it was; and, on keywords, the error of the first of its three library
    calls that fails, made on this triplet's data, the world as that call
    left it. *)
Inductive iteration_raises (self : Self) (n : Z) (persona_list : list Persona)
    (callbacks : Callbacks) (q : Z) (scenarios : list MultiHopScenario)
  : Triplet -> World -> Exception -> World -> Prop :=
| raises_missing a r b w :
    Py.len scenarios < n ->
    rel_properties r !! "overlapped_items" = None ->
    iteration_raises self n persona_list callbacks q scenarios
      (a, r, b) w (KeyError "overlapped_items") w
| raises_prompt a r b w item items err e1 :
    Py.len scenarios < n ->
    rel_properties r !! "overlapped_items" = Some (item :: items) ->
    generate {| themes := Py.dict_keys (item :: items); personas := persona_list |}
      (llm self) callbacks (ext w) = (inl err, e1) ->
    iteration_raises self n persona_list callbacks q scenarios
      (a, r, b) w (LibraryError err)
      (asked w {| themes := Py.dict_keys (item :: items);
                  personas := persona_list |} e1)
| raises_prepare a r b w item items concepts err e1 :
    Py.len scenarios < n ->
    rel_properties r !! "overlapped_items" = Some (item :: items) ->
    generate {| themes := Py.dict_keys (item :: items); personas := persona_list |}
      (llm self) callbacks (ext w) = (inr concepts, e1) ->
    prepare_combinations [a; b] (map Py.list_of_pair (item :: items))
      persona_list (mapping concepts) "keyphrases" = inl err ->
    iteration_raises self n persona_list callbacks q scenarios
      (a, r, b) w (LibraryError err)
      (asked w {| themes := Py.dict_keys (item :: items);
                  personas := persona_list |} e1)
| raises_sample a r b w item items concepts base err e1 e2 :
    Py.len scenarios < n ->
    rel_properties r !! "overlapped_items" = Some (item :: items) ->
    generate {| themes := Py.dict_keys (item :: items); personas := persona_list |}
      (llm self) callbacks (ext w) = (inr concepts, e1) ->
    prepare_combinations [a; b] (map Py.list_of_pair (item :: items))
      persona_list (mapping concepts) "keyphrases" = inr base ->
    sample_diverse_combinations base q e1 = (inl err, e2) ->
    iteration_raises self n persona_list callbacks q scenarios
      (a, r, b) w (LibraryError err)
      (asked w {| themes := Py.dict_keys (item :: items);
                  personas := persona_list |} e2).

(** [s] is one of the scenarios an iteration on [triplet] samples: the
    triplet has keywords, the prompt answered on their themes, the
    combinations were prepared from the two end nodes and the keyword pairs,
    and sampling them with the quota [q] returned a list that holds [s]. *)
Definition drawn_from (self : Self) (persona_list : list Persona)
    (callbacks : Callbacks) (q : Z) (triplet : Triplet) (s : MultiHopScenario)
  : Prop :=
  exists items concepts base e0 e1 e2 sampled,
    rel_properties triplet.1.2 !! "overlapped_items" = Some items /\
    items <> [] /\
    generate {| themes := Py.dict_keys items; personas := persona_list |}
      (llm self) callbacks e0 = (inr concepts, e1) /\
    prepare_combinations [triplet.1.1; triplet.2] (map Py.list_of_pair items)
      persona_list (mapping concepts) "keyphrases" = inr base /\
    sample_diverse_combinations base q e1 = (inr sampled, e2) /\
    s ∈ sampled.

(** The [for] statement: the body on each triplet in turn, the list threaded
    through; a raising iteration ends the loop. *)
Fixpoint for_each
    (body : list MultiHopScenario -> Triplet -> Run (list MultiHopScenario))
    (results : list Triplet) (scenarios : list MultiHopScenario)
  : Run (list MultiHopScenario) :=
  match results with
  | [] => ret scenarios
  | triplet :: rest =>
      (scenarios' <- body scenarios triplet ;; for_each body rest scenarios')%run
  end.

(** [async def _generate_scenarios(self, n, knowledge_graph, persona_list,
    callbacks)]. The query is written on the name [kg], which the body does
    not bind: it is the notebook's module-level graph. *)
Definition _generate_scenarios (globals : Globals) (self : Self) (n : Z)
    (knowledge_graph : KnowledgeGraph) (persona_list : list Persona)
    (callbacks : Callbacks) : Run (list MultiHopScenario) :=
  let results := find_two_nodes_single_rel (kg globals) relationship_condition in
  (num_sample_per_triplet <- num_sample_per_triplet n results ;;
   for_each (loop_body self n persona_list callbacks num_sample_per_triplet)
     results [])%run.

End WithLibrary.
End MyMultiHopQuery.

(** ** A reference implementation of the library operations

    Small executable stand-ins for the [ragas] operations, on which the
    method can be run on concrete graphs. *)

Module Reference.

(** Modelled from the spec: the graph query of the library ("querying the
    graph for node pairs sharing a typed relationship"), whose code is not
    part of the sources: every relationship that satisfies the condition,
    with its two end nodes. *)
Definition find_two_nodes_single_rel (g : KnowledgeGraph)
    (cond : Relationship -> bool) : list Triplet :=
  List.map (fun r => (rel_source r, r, rel_target r))
           (List.filter cond (relationships g)).

(** Modelled from the spec: the persona-matching prompt ("matching
    overlapping keyphrases to personas via a delegated prompt call"), whose
    code is not part of the sources. The external state is the number of
    calls the language model still answers; once it is used up the call
    fails. Every persona is matched with every theme. *)
Definition generate (data : ThemesPersonasInput) (_ _ : unit) (budget : nat)
  : (string + PersonaThemesMapping) * nat :=
  match budget with
  | O => (inl "language model unavailable", O)
  | S budget' =>
      (inr {| mapping := List.map (fun p => (name p, themes data)) (personas data) |},
       budget')
  end.

(** Modelled from the spec: combination preparation ("expanding
    combinations"), whose code is not part of the sources: one entry per
    keyphrase pair, open to every persona, style and length. *)
Definition prepare_combinations (nodes : list Node)
    (combinations : list (list string)) (personas : list Persona)
    (persona_item_mapping : list (string * list string))
    (property_name : string) : string + list Combination :=
  inr (List.map (fun c => {| combination := c;
                             comb_personas := personas;
                             comb_nodes := nodes;
                             comb_styles := [MISSPELLED; PERFECT_GRAMMAR;
                                             POOR_GRAMMAR; WEB_SEARCH_LIKE];
                             comb_lengths := [LONG; MEDIUM; SHORT] |})
                combinations).

Definition expand (c : Combination) : list MultiHopScenario :=
  List.flat_map (fun p =>
    List.flat_map (fun s =>
      List.map (fun l => {| sc_nodes := comb_nodes c;
                            sc_combinations := combination c;
                            sc_style := s;
                            sc_length := l;
                            sc_persona := p |})
               (comb_lengths c))
      (comb_styles c))
    (comb_personas c).

(** Modelled from the spec: diverse sampling ("sampling a subset"), whose
    code is not part of the sources: the first [num_samples] of the
    expanded combinations. *)
Definition sample_diverse_combinations (data : list Combination)
    (num_samples : Z) (budget : nat)
  : (string + list MultiHopScenario) * nat :=
  (inr (firstn (Z.to_nat num_samples) (List.flat_map expand data)), budget).

#[export] Instance library : External :=
  Build_External unit unit string nat
    find_two_nodes_single_rel generate prepare_combinations
    sample_diverse_combinations.

(** *** Sample graphs *)

Definition node_a : Node :=
  {| node_id := 1%N; node_type := CHUNK;
     node_properties := {[ "keyphrases" := ["diversity"; "inclusion"] ]} |}.

Definition node_b : Node :=
  {| node_id := 2%N; node_type := CHUNK;
     node_properties := {[ "keyphrases" := ["diversity"; "inclusion goals"] ]} |}.

Definition node_c : Node :=
  {| node_id := 3%N; node_type := CHUNK;
     node_properties := {[ "keyphrases" := ["hiring"] ]} |}.

Definition rel_overlap (a b : Node) (items : list (string * string)) : Relationship :=
  {| rel_source := a; rel_target := b; rel_type := "keyphrases_overlap";
     rel_properties := {[ "overlapped_items" := items ]} |}.

Definition rel_similar (a b : Node) : Relationship :=
  {| rel_source := a; rel_target := b; rel_type := "cosine_similarity";
     rel_properties := ∅ |}.

(** An overlap relationship that lost its ["overlapped_items"] property. *)
Definition rel_bare (a b : Node) : Relationship :=
  {| rel_source := a; rel_target := b; rel_type := "keyphrases_overlap";
     rel_properties := ∅ |}.

Definition items_ab : list (string * string) :=
  [("diversity", "diversity"); ("inclusion", "inclusion goals")].

Definition kg_overlap : KnowledgeGraph :=
  {| nodes := [node_a; node_b];
     relationships := [rel_overlap node_a node_b items_ab] |}.

Definition kg_similar : KnowledgeGraph :=
  {| nodes := [node_a; node_b];
     relationships := [rel_similar node_a node_b] |}.

Definition kg_no_items : KnowledgeGraph :=
  {| nodes := [node_a; node_b; node_c];
     relationships := [rel_overlap node_a node_c []; rel_overlap node_a node_b items_ab] |}.

Definition kg_bare : KnowledgeGraph :=
  {| nodes := [node_a; node_b];
     relationships := [rel_bare node_a node_b] |}.

Definition kg_empty : KnowledgeGraph :=
  {| nodes := []; relationships := [] |}.

(** An overlap relationship with keywords followed by one without the
    property. *)
Definition kg_then_bare : KnowledgeGraph :=
  {| nodes := [node_a; node_b; node_c];
     relationships := [rel_overlap node_a node_b items_ab; rel_bare node_a node_c] |}.

(** Overlap relationships whose keyword lists are all empty. *)
Definition kg_all_empty : KnowledgeGraph :=
  {| nodes := [node_a; node_b; node_c];
     relationships := [rel_overlap node_a node_b []; rel_overlap node_a node_c []] |}.

(** A keyword list that repeats a first component. *)
Definition items_repeated : list (string * string) :=
  [("diversity", "diversity"); ("inclusion", "inclusion goals");
   ("diversity", "diversity goals")].

(** The personas of the notebook. *)
Definition person1 : Persona :=
  {| name := "gitlab employee";
     role_description := "A junior gitlab employee curious on workings on gitlab" |}.

Definition persona2 : Persona :=
  {| name := "Hiring manager at gitlab";
     role_description :=
       "A hiring manager at gitlab trying to underestand hiring policies in gitlab" |}.

Definition persona_list : list Persona := [person1; persona2].

Definition self : MyMultiHopQuery.Self := {| MyMultiHopQuery.llm := tt |}.

Definition world (budget : nat) : World :=
  {| ext := budget; prompt_calls := [] |}.

(** [_generate_scenarios] with the module-level graph [kg] and the graph
    passed as argument, from a world that answers [budget] prompts. *)
Definition run (kg : KnowledgeGraph) (n : Z) (knowledge_graph : KnowledgeGraph)
    (budget : nat) : (Exception + list MultiHopScenario) * World :=
  MyMultiHopQuery._generate_scenarios {| MyMultiHopQuery.kg := kg |} self n
    knowledge_graph persona_list tt (world budget).

End Reference.

(** ** The notebook as a sequence of cells *)

Module Notebook.

(** What a code cell does. *)
Inductive Step :=
| CloneDocuments       (* ! git clone ... *)
| LoadDocuments        (* docs = loader.load() *)
| PopulateGraph        (* kg = KnowledgeGraph(); kg.nodes.append(...) *)
| SetUpModels          (* llm = llm_factory(); embedding = embedding_factory() *)
| ConfigureTransforms  (* extractors, splitter, relation builder *)
| ApplyTransforms      (* apply_transforms(kg, transforms=transforms) *)
| ConfigurePersonas    (* persona_list = [person1, persona2] *)
| DefineSynthesizer    (* class MyMultiHopQuery(MultiHopQuerySynthesizer) *)
| GenerateScenarios    (* scenarios = await query.generate_scenarios(...) *)
| ShowScenario         (* scenarios[4] *)
| GenerateSample       (* result = await query.generate_sample(...) *)
| ShowSample.          (* result.user_input *)

#[global] Instance Step_eq_dec : EqDecision Step.
Proof. solve_decision. Defined.

(** A cell of the notebook. A code cell carries its recorded
    [execution_count], the step it performs (none for the empty cell), the
    module-level names it reads when it runs and the names it binds. *)
Inductive Cell :=
| markdown
| code (execution_count : option nat) (step : option Step)
       (reads binds : list string).

(** The ["cells"] array, top to bottom. *)
Definition cells : list Cell := [
  markdown;
  markdown;
  code None (Some CloneDocuments) [] [];
  code (Some 4%nat) (Some LoadDocuments) []
    ["DirectoryLoader"; "path"; "loader"; "docs"];
  markdown;
  code (Some 5%nat) (Some PopulateGraph) ["docs"]
    ["KnowledgeGraph"; "Node"; "NodeType"; "kg"];
  markdown;
  code (Some 6%nat) (Some SetUpModels) []
    ["llm_factory"; "embedding_factory"; "llm"; "embedding"];
  markdown;
  code (Some 46%nat) (Some ConfigureTransforms) ["llm"]
    ["apply_transforms"; "HeadlinesExtractor"; "HeadlineSplitter";
     "KeyphrasesExtractor"; "OverlapScoreBuilder"; "headline_extractor";
     "headline_splitter"; "keyphrase_extractor"; "relation_builder"];
  code (Some 8%nat) (Some ApplyTransforms)
    ["headline_extractor"; "headline_splitter"; "keyphrase_extractor";
     "relation_builder"; "apply_transforms"; "kg"]
    ["transforms"];
  markdown;
  code (Some 79%nat) (Some ConfigurePersonas) []
    ["Persona"; "person1"; "persona2"; "persona_list"];
  markdown;
  code (Some 137%nat) (Some DefineSynthesizer) []
    ["dataclass"; "t"; "MultiHopQuerySynthesizer"; "MultiHopScenario";
     "ThemesPersonasInput"; "ThemesPersonasMatchingPrompt"; "MyMultiHopQuery"];
  code (Some 138%nat) (Some GenerateScenarios)
    ["MyMultiHopQuery"; "llm"; "kg"; "persona_list"; "ThemesPersonasInput"]
    ["query"; "scenarios"];
  code (Some 151%nat) (Some ShowScenario) ["scenarios"] [];
  code None None [] [];
  markdown;
  code (Some 143%nat) (Some GenerateSample) ["query"; "scenarios"] ["result"];
  code (Some 144%nat) (Some ShowSample) ["result"] [];
  markdown;
  markdown
].

Definition step_of (c : Cell) : option Step :=
  match c with
  | markdown => None
  | code _ s _ _ => s
  end.

Definition execution_count_of (c : Cell) : option nat :=
  match c with
  | markdown => None
  | code ec _ _ _ => ec
  end.

(** Running one cell in the environment of module-level names bound so
    far: a read of an unbound name is a [NameError] ([None]). *)
Definition run_cell (env : list string) (c : Cell) : option (list string) :=
  match c with
  | markdown => Some env
  | code _ _ reads binds =>
      if forallb (fun x => Py.mem x env) reads then Some (env ++ binds)
      else None
  end.

(** Running cells top to bottom; the result is the final environment and
    the steps performed, in order. *)
Fixpoint run_all (env : list string) (cs : list Cell)
  : option (list string * list Step) :=
  match cs with
  | [] => Some (env, [])
  | c :: rest =>
      match run_cell env c with
      | None => None
      | Some env' =>
          match run_all env' rest with
          | None => None
          | Some (env'', steps) =>
              Some (env'', match step_of c with
                           | Some s => s :: steps
                           | None => steps
                           end)
          end
      end
  end.

(** Index of the first occurrence of [s] in a list of steps. *)
Fixpoint position (s : Step) (steps : list Step) : option nat :=
  match steps with
  | [] => None
  | s' :: rest =>
      if decide (s = s') then Some O else S <$> position s rest
  end.

(** [a] is performed, and [b] is performed later, in the sequence [steps]. *)
Definition precedes (steps : list Step) (a b : Step) : Prop :=
  exists i j, steps !! i = Some a /\ steps !! j = Some b /\ (i < j)%nat.

(** The recorded execution count of the cell that performs [s]. *)
Definition executed_at (s : Step) : option nat :=
  match List.find (fun c => bool_decide (step_of c = Some s)) cells with
  | Some c => execution_count_of c
  | None => None
  end.

(** A strictly increasing list of counters. *)
Fixpoint increasing (l : list nat) : bool :=
  match l with
  | x :: (y :: _) as rest => Nat.ltb x y && increasing rest
  | _ => true
  end.

(** The steps the description of the notebook names, in its order. *)
Definition stated_order : list Step :=
  [LoadDocuments; PopulateGraph; ApplyTransforms; ConfigurePersonas;
   DefineSynthesizer; GenerateScenarios; GenerateSample].

End Notebook.

(** ** The workspace configuration file *)

Module Workspace.

#[local] Set Warnings "-register-all".

Inductive Value :=
| Str (s : string)
| Int (z : Z)
| Bool (b : bool)
| Array (items : list Value).

Definition Table : Type := list (string * Value).

(** [workspace.toml], table by table. *)
Definition workspace_toml : list (string * Table) := [
  ("workspace", []);
  ("tool.ruff",
    [("select", Array [Str "E"; Str "F"; Str "I"]);
     ("ignore", Array [Str "E501"]);
     ("line-length", Int 88);
     ("target-version", Str "py39");
     ("exclude", Array [Str "*.ipynb"])]);
  ("tool.ruff.lint.isort",
    [("known-first-party", Array [Str "ragas"; Str "ragas_experimental"]);
     ("force-single-line", Bool false);
     ("combine-as-imports", Bool true)]);
  ("tool.black",
    [("line-length", Int 88);
     ("target-version", Array [Str "py39"]);
     ("include", Str "\.pyi?$")]);
  ("tool.pyright",
    [("include", Array [Str "ragas/src/ragas"; Str "experimental/ragas_experimental"]);
     ("excludeTypeshedPaths", Array [Str "@types/*"]);
     ("pythonVersion", Str "3.9");
     ("pythonPlatform", Str "All");
     ("typeCheckingMode", Str "basic")]);
  ("tool.pytest.ini_options",
    [("addopts", Str "-n 0");
     ("asyncio_default_fixture_loop_scope", Str "function");
     ("testpaths", Array [Str "ragas/tests"])])
].

Fixpoint assoc {V} (key : string) (l : list (string * V)) : option V :=
  match l with
  | [] => None
  | (k, v) :: rest => if String.eqb key k then Some v else assoc key rest
  end.

(** The value of [key] in the table [[table]]. *)
Definition get (table key : string) : option Value :=
  match assoc table workspace_toml with
  | Some t => assoc key t
  | None => None
  end.

(** A table of settings of a developer tool: its header is under [tool.]. *)
Definition is_tool_table (header : string) : bool :=
  String.prefix "tool." header.

(** The tool a [tool.<name>...] header configures. *)
Definition tool_of (header : string) : string :=
  let rest := String.substring 5 (String.length header - 5) header in
  match String.index 0 "." rest with
  | Some i => String.substring 0 i rest
  | None => rest
  end.

(** The tools the file configures, one entry per table. *)
Definition configured_tools : list string :=
  List.map tool_of (List.filter is_tool_table (List.map fst workspace_toml)).

(** Whether a header of the file declares [header.key], or a table below
    it: then [key] names a sub-table of [[header]]. *)
Definition declares_subtable (header key : string) : bool :=
  let sub := String.append header (String.append "." key) in
  existsb (fun h => String.eqb h sub || String.prefix (String.append sub ".") h)
          (List.map fst workspace_toml).

(** No key written under a header has the name of a sub-table of it. *)
Definition keys_clear_of_subtables : bool :=
  forallb (fun ht => forallb (fun kv => negb (declares_subtable (fst ht) (fst kv)))
                             (snd ht))
          workspace_toml.

(** The tables that are not settings of a tool, with their contents. *)
Definition other_tables : list (string * Table) :=
  List.filter (fun t => negb (is_tool_table (fst t))) workspace_toml.

End Workspace.

(** * Properties *)

(** ** Python primitives *)

Lemma floordiv_nonzero (a b : Z) : b <> 0 -> Py.floordiv a b = Some (a / b).
Proof.
  intros Hb. unfold Py.floordiv.
  destruct (Z.eqb_spec b 0); [contradiction | reflexivity].
Qed.

Lemma floordiv_zero (a : Z) : Py.floordiv a 0 = None.
Proof. reflexivity. Qed.

Lemma max_is_Zmax (a b : Z) : Py.max a b = Z.max a b.
Proof. unfold Py.max. destruct (Z.ltb_spec a b); lia. Qed.

Lemma len_nil {A} : Py.len (@nil A) = 0.
Proof. reflexivity. Qed.

Lemma len_app {A} (l k : list A) : Py.len (l ++ k) = Py.len l + Py.len k.
Proof. unfold Py.len. rewrite length_app. lia. Qed.

Lemma len_cons {A} (x : A) (l : list A) : Py.len (x :: l) = 1 + Py.len l.
Proof. unfold Py.len. simpl length. lia. Qed.

Lemma len_nonneg {A} (l : list A) : 0 <= Py.len l.
Proof. unfold Py.len. lia. Qed.

Lemma len_zero_iff {A} (l : list A) : Py.len l = 0 <-> l = [].
Proof.
  destruct l as [|x l]; [easy |].
  rewrite len_cons. pose proof (len_nonneg l). split; [lia | discriminate].
Qed.

(** ** The reference library satisfies the laws *)

Lemma reference_find_sound g cond a r b :
  In (a, r, b) (Reference.find_two_nodes_single_rel g cond) ->
  In r (relationships g) /\ cond r = true.
Proof.
  unfold Reference.find_two_nodes_single_rel.
  intros Hin. apply in_map_iff in Hin as (r0 & Heq & Hr0).
  apply filter_In in Hr0. inversion Heq; subst. exact Hr0.
Qed.

#[export] Instance reference_laws : ExternalLaws Reference.library.
Proof.
  split.
  - intros g cond a r b Hin. apply reference_find_sound in Hin as [Hr Hc].
    exists r. auto.
  - intros data k e l e' Hk Hs. cbn in Hs.
    unfold Reference.sample_diverse_combinations in Hs.
    inversion Hs; subst. unfold Py.len. rewrite length_firstn. lia.
Qed.

Section Facts.
Context {X : External}.
Import MyMultiHopQuery.

Implicit Types (self : Self) (n q : Z) (ps : list Persona) (cb : Callbacks).
Implicit Types (scen : list MultiHopScenario) (w : World) (t : Triplet).

(** *** The monad *)

Lemma bind_inr {A B} (m : Run A) (k : A -> Run B) w a w' :
  m w = (inr a, w') -> bind m k w = k a w'.
Proof. intros H. unfold bind. rewrite H. reflexivity. Qed.

Lemma bind_inl {A B} (m : Run A) (k : A -> Run B) w e w' :
  m w = (inl e, w') -> bind m k w = (inl e, w').
Proof. intros H. unfold bind. rewrite H. reflexivity. Qed.

Lemma bind_inv_inr {A B} (m : Run A) (k : A -> Run B) w b w' :
  bind m k w = (inr b, w') ->
  exists a w0, m w = (inr a, w0) /\ k a w0 = (inr b, w').
Proof.
  unfold bind. destruct (m w) as [[e|a] w0]; [discriminate |]. eauto.
Qed.

Lemma bind_inv_inl {A B} (m : Run A) (k : A -> Run B) w e w' :
  bind m k w = (inl e, w') ->
  m w = (inl e, w') \/ exists a w0, m w = (inr a, w0) /\ k a w0 = (inl e, w').
Proof.
  unfold bind. destruct (m w) as [[e0|a] w0]; [left; congruence | right; eauto].
Qed.

(** *** The quota *)

Lemma quota_nonempty n (results : list Triplet) w :
  results <> [] ->
  num_sample_per_triplet n results w = (inr (Z.max 1 (n / Py.len results)), w).
Proof.
  intros Hne. unfold num_sample_per_triplet.
  rewrite floordiv_nonzero by (rewrite len_zero_iff; exact Hne).
  rewrite max_is_Zmax. reflexivity.
Qed.

Lemma quota_empty n w :
  num_sample_per_triplet n [] w = (inl ZeroDivisionError, w).
Proof. reflexivity. Qed.

(** *** One iteration of the loop *)

(** Past the guard the list is returned as it is and nothing is called. *)
Lemma loop_body_full self n ps cb q scen t w :
  n <= Py.len scen -> loop_body self n ps cb q scen t w = (inr scen, w).
Proof.
  intros Hn. unfold loop_body.
  destruct (Z.ltb_spec (Py.len scen) n); [lia | reflexivity].
Qed.

Lemma loop_body_missing self n ps cb q scen a r b w :
  Py.len scen < n -> rel_properties r !! "overlapped_items" = None ->
  loop_body self n ps cb q scen (a, r, b) w = (inl (KeyError "overlapped_items"), w).
Proof.
  intros Hn Hnone. unfold loop_body.
  destruct (Z.ltb_spec (Py.len scen) n); [| lia].
  unfold bind, getitem. rewrite Hnone. reflexivity.
Qed.

Lemma loop_body_empty self n ps cb q scen a r b w :
  rel_properties r !! "overlapped_items" = Some [] ->
  loop_body self n ps cb q scen (a, r, b) w = (inr scen, w).
Proof.
  intros Hsome. unfold loop_body.
  destruct (Py.len scen <? n); [| reflexivity].
  unfold bind, getitem. rewrite Hsome. reflexivity.
Qed.

(** An iteration that reaches the prompt call: what it returns, by the
    outcome of the three library calls. *)
Lemma loop_body_items self n ps cb q scen a r b w item items :
  Py.len scen < n ->
  rel_properties r !! "overlapped_items" = Some (item :: items) ->
  let data := {| themes := Py.dict_keys (item :: items); personas := ps |} in
  loop_body self n ps cb q scen (a, r, b) w =
    match generate data (llm self) cb (ext w) with
    | (inl err, e1) => (inl (LibraryError err), asked w data e1)
    | (inr concepts, e1) =>
        match prepare_combinations [a; b] (map Py.list_of_pair (item :: items))
                ps (mapping concepts) "keyphrases" with
        | inl err => (inl (LibraryError err), asked w data e1)
        | inr base =>
            match sample_diverse_combinations base q e1 with
            | (inl err, e2) => (inl (LibraryError err), asked w data e2)
            | (inr sampled, e2) => (inr (scen ++ sampled), asked w data e2)
            end
        end
    end.
Proof.
  intros Hn Hsome data. unfold loop_body.
  destruct (Z.ltb_spec (Py.len scen) n); [| lia].
  unfold bind at 1. unfold getitem. rewrite Hsome. cbn [ret Py.truthy].
  fold data. unfold bind, await_generate, call, call_pure, ret, raise, asked.
  cbn [ext prompt_calls].
  destruct (generate data (llm self) cb (ext w)) as [[err|concepts] e1];
    [reflexivity |].
  destruct (prepare_combinations _ _ _ _ _) as [err|base]; [reflexivity |].
  cbn [ext prompt_calls].
  destruct (sample_diverse_combinations base q e1) as [[err|sampled] e2];
    reflexivity.
Qed.

(** The prompt calls of one iteration: the input of the triplet when the
    guard holds and its keywords are not empty, nothing otherwise. *)
Lemma loop_body_calls self n ps cb q scen t w :
  prompt_calls (loop_body self n ps cb q scen t w).2 =
  prompt_calls w ++
    (if Py.len scen <? n then option_list (prompt_input_of ps t) else []).
Proof.
  destruct t as [[a r] b].
  destruct (Z.ltb_spec (Py.len scen) n) as [Hlt|Hge].
  - unfold prompt_input_of. cbn [fst snd].
    destruct (rel_properties r !! "overlapped_items") as [[|item items]|] eqn:Hp.
    + rewrite loop_body_empty by exact Hp. cbn. now rewrite app_nil_r.
    + rewrite (loop_body_items self n ps cb q scen a r b w item items Hlt Hp).
      cbn zeta.
      destruct (generate _ _ _ _) as [[err|concepts] e1]; [reflexivity |].
      destruct (prepare_combinations _ _ _ _ _) as [err|base]; [reflexivity |].
      destruct (sample_diverse_combinations _ _ _) as [[err|sampled] e2];
        reflexivity.
    + rewrite loop_body_missing by assumption. cbn. now rewrite app_nil_r.
  - rewrite loop_body_full by exact Hge. cbn. now rewrite app_nil_r.
Qed.

(** An iteration fails only on the missing property or inside a library
    call, and then with that call's error. *)
Lemma loop_body_error self n ps cb q scen a r b w e w' :
  loop_body self n ps cb q scen (a, r, b) w = (inl e, w') ->
  (e = KeyError "overlapped_items" /\
   rel_properties r !! "overlapped_items" = None /\ w' = w) \/
  (exists err, e = LibraryError err /\ library_raised self cb err).
Proof.
  destruct (Z.ltb_spec (Py.len scen) n) as [Hlt|Hge].
  - destruct (rel_properties r !! "overlapped_items") as [[|item items]|] eqn:Hp.
    + rewrite loop_body_empty by exact Hp. discriminate.
    + rewrite (loop_body_items self n ps cb q scen a r b w item items Hlt Hp).
      cbn zeta. unfold library_raised.
      destruct (generate _ _ _ _) as [[err|concepts] e1] eqn:Hg.
      { intros [= <- <-]. right. exists err. split; [reflexivity |].
        left. eauto. }
      destruct (prepare_combinations _ _ _ _ _) as [err|base] eqn:Hc.
      { intros [= <- <-]. right. exists err. split; [reflexivity |].
        right; left. eauto 8. }
      destruct (sample_diverse_combinations _ _ _) as [[err|sampled] e2] eqn:Hs.
      { intros [= <- <-]. right. exists err. split; [reflexivity |].
        right; right. eauto. }
      discriminate.
    + rewrite loop_body_missing by assumption. intros [= <- <-]. left. auto.
  - rewrite loop_body_full by exact Hge. discriminate.
Qed.

(** A successful iteration appends to the list, at most [q] scenarios, and
    nothing once [n] are collected. *)
Lemma loop_body_length {L : ExternalLaws X} self n ps cb q scen t w scen' w' :
  1 <= q ->
  loop_body self n ps cb q scen t w = (inr scen', w') ->
  Py.len scen <= Py.len scen' <= Py.len scen + q /\
  (n <= Py.len scen -> scen' = scen).
Proof.
  intros Hq. destruct t as [[a r] b].
  destruct (Z.ltb_spec (Py.len scen) n) as [Hlt|Hge].
  - destruct (rel_properties r !! "overlapped_items") as [[|item items]|] eqn:Hp.
    + rewrite loop_body_empty by exact Hp. intros [= <- <-]. split; [lia | reflexivity].
    + rewrite (loop_body_items self n ps cb q scen a r b w item items Hlt Hp).
      cbn zeta.
      destruct (generate _ _ _ _) as [[err|concepts] e1]; [discriminate |].
      destruct (prepare_combinations _ _ _ _ _) as [err|base]; [discriminate |].
      destruct (sample_diverse_combinations _ _ _) as [[err|sampled] e2] eqn:Hs;
        [discriminate |].
      intros [= <- <-]. apply sample_bounded in Hs; [| exact Hq].
      rewrite len_app. pose proof (len_nonneg sampled). split; [lia | intros; lia].
    + rewrite loop_body_missing by assumption. discriminate.
  - rewrite loop_body_full by exact Hge. intros [= <- <-]. split; [lia | reflexivity].
Qed.

(** *** The loop *)

Section Loop.
Variable body : list MultiHopScenario -> Triplet -> Run (list MultiHopScenario).

Lemma for_each_app (pre post : list Triplet) scen w :
  for_each body (pre ++ post) scen w =
  bind (for_each body pre scen) (for_each body post) w.
Proof.
  revert scen w. induction pre as [|t pre IH]; intros scen w.
  - reflexivity.
  - cbn [for_each app]. unfold bind in *.
    destruct (body scen t w) as [[e|scen1] w1]; [reflexivity |].
    apply IH.
Qed.

(** The loop fails exactly when some iteration fails after the ones
    before it succeeded, and then with that iteration's result. *)
Lemma for_each_error (results : list Triplet) scen w e w' :
  for_each body results scen w = (inl e, w') <->
  exists pre t post scen0 w0,
    results = pre ++ t :: post /\
    for_each body pre scen w = (inr scen0, w0) /\
    body scen0 t w0 = (inl e, w').
Proof.
  split.
  - revert scen w. induction results as [|t rest IH]; intros scen w H.
    + discriminate.
    + cbn [for_each] in H. apply bind_inv_inl in H as [H | (s1 & w1 & H1 & H2)].
      * exists [], t, rest, scen, w. auto.
      * apply IH in H2 as (pre & t' & post & scen0 & w0 & -> & Hpre & Hb).
        exists (t :: pre), t', post, scen0, w0. split; [reflexivity |].
        split; [| exact Hb]. cbn [for_each].
        rewrite (bind_inr _ _ _ _ _ H1). exact Hpre.
  - intros (pre & t & post & scen0 & w0 & -> & Hpre & Hb).
    rewrite for_each_app. rewrite (bind_inr _ _ _ _ _ Hpre).
    cbn [for_each]. apply bind_inl. exact Hb.
Qed.
End Loop.

(** The prompt calls of the loop: a subsequence, in order, of the inputs of
    the triplets whose keywords are not empty. *)
Lemma for_each_calls self n ps cb q (results : list Triplet) scen w :
  exists calls,
    prompt_calls (for_each (loop_body self n ps cb q) results scen w).2 =
      prompt_calls w ++ calls /\
    sublist calls (omap (prompt_input_of ps) results).
Proof.
  revert scen w. induction results as [|t rest IH]; intros scen w.
  - exists []. cbn. rewrite app_nil_r. split; [reflexivity | constructor].
  - pose proof (loop_body_calls self n ps cb q scen t w) as Hc.
    assert (Hsub : sublist
              (if Py.len scen <? n then option_list (prompt_input_of ps t) else [])
              (option_list (prompt_input_of ps t))).
    { destruct (Py.len scen <? n); [reflexivity | apply sublist_nil_l]. }
    assert (Homap : omap (prompt_input_of ps) (t :: rest) =
                    option_list (prompt_input_of ps t) ++
                    omap (prompt_input_of ps) rest).
    { cbn. destruct (prompt_input_of ps t); reflexivity. }
    rewrite Homap. cbn [for_each]. unfold bind.
    destruct (loop_body self n ps cb q scen t w) as [[e|scen1] w1].
    + eexists. split; [exact Hc |].
      etransitivity; [exact Hsub | apply sublist_inserts_r; reflexivity].
    + destruct (IH scen1 w1) as (calls & Heq & Hs).
      eexists. split.
      * rewrite Heq. cbn [snd] in Hc. rewrite Hc. rewrite <- app_assoc.
        reflexivity.
      * apply sublist_app; assumption.
Qed.

(** The length of the list the loop returns. *)
Lemma for_each_length {L : ExternalLaws X} self n ps cb q
    (results : list Triplet) scen w scen' w' :
  1 <= q ->
  for_each (loop_body self n ps cb q) results scen w = (inr scen', w') ->
  Py.len scen' <= Py.len scen + Py.len results * q /\
  (q = 1 -> Py.len scen <= n -> Py.len scen' <= n) /\
  (n <= Py.len scen -> scen' = scen).
Proof.
  intros Hq. revert scen w.
  induction results as [|t rest IH]; intros scen w H.
  - cbn in H. injection H as <- <-. change (Py.len (@nil Triplet)) with 0.
    repeat split; auto; lia.
  - cbn [for_each] in H. apply bind_inv_inr in H as (s1 & w1 & H1 & H2).
    apply loop_body_length in H1 as [Hlen Hfull]; [| exact Hq].
    apply IH in H2 as (Ha & Hb & Hc). rewrite len_cons.
    split; [nia |]. split.
    + intros Hq1 Hle. apply Hb; [exact Hq1 |].
      destruct (Z.le_gt_cases n (Py.len scen)) as [Hge|Hlt].
      * rewrite (Hfull Hge). exact Hle.
      * lia.
    + intros Hge. rewrite <- (Hfull Hge). apply Hc. rewrite (Hfull Hge). exact Hge.
Qed.

(** *** The method *)

Lemma generate_scenarios_nonempty globals self n knowledge_graph ps cb w :
  find_two_nodes_single_rel (kg globals) relationship_condition <> [] ->
  _generate_scenarios globals self n knowledge_graph ps cb w =
  for_each
    (loop_body self n ps cb
       (Z.max 1 (n / Py.len (find_two_nodes_single_rel (kg globals)
                               relationship_condition))))
    (find_two_nodes_single_rel (kg globals) relationship_condition) [] w.
Proof.
  intros Hne. unfold _generate_scenarios, bind.
  rewrite (quota_nonempty n _ w Hne). reflexivity.
Qed.

Lemma generate_scenarios_empty globals self n knowledge_graph ps cb w :
  find_two_nodes_single_rel (kg globals) relationship_condition = [] ->
  _generate_scenarios globals self n knowledge_graph ps cb w =
  (inl ZeroDivisionError, w).
Proof.
  intros Hnil. unfold _generate_scenarios. rewrite Hnil. reflexivity.
Qed.

(** A failure of the method other than the division is a failure of an
    iteration of its loop. *)
Lemma generate_scenarios_error globals self n knowledge_graph ps cb w e w' :
  find_two_nodes_single_rel (kg globals) relationship_condition <> [] ->
  _generate_scenarios globals self n knowledge_graph ps cb w = (inl e, w') ->
  e = KeyError "overlapped_items" \/
  exists err, e = LibraryError err /\ library_raised self cb err.
Proof.
  intros Hne H. rewrite generate_scenarios_nonempty in H by exact Hne.
  apply for_each_error in H as (pre & [[a r] b] & post & scen0 & w0 & _ & _ & Hb).
  apply loop_body_error in Hb as [(-> & _) | Hlib]; auto.
Qed.

Lemma relationship_condition_true rel :
  relationship_condition rel = true <-> rel_type rel = "keyphrases_overlap".
Proof.
  unfold relationship_condition.
  destruct (String.eqb_spec (rel_type rel) "keyphrases_overlap"); split;
    congruence.
Qed.

(** On a graph without a relationship of the type the query is empty. *)
Lemma query_empty {L : ExternalLaws X} g :
  (forall r, In r (relationships g) -> rel_type r <> "keyphrases_overlap") ->
  find_two_nodes_single_rel g relationship_condition = [].
Proof.
  intros Hno.
  destruct (find_two_nodes_single_rel g relationship_condition)
    as [|[[a r] b] rest] eqn:Hq; [reflexivity |].
  destruct (find_sound g relationship_condition a r b) as (r0 & Hin & Hc & _).
  { rewrite Hq. left. reflexivity. }
  apply relationship_condition_true in Hc. exfalso. exact (Hno r0 Hin Hc).
Qed.

(** With a bounded sampling the method returns at most [n] scenarios, none
    for a negative [n]. *)
Lemma generate_scenarios_length {L : ExternalLaws X}
    globals self n knowledge_graph ps cb w scen w' :
  _generate_scenarios globals self n knowledge_graph ps cb w = (inr scen, w') ->
  1 <= Py.len (find_two_nodes_single_rel (kg globals) relationship_condition) /\
  Py.len scen <= Z.max 0 n.
Proof.
  intros H.
  set (results := find_two_nodes_single_rel (kg globals) relationship_condition) in *.
  assert (Hne : results <> []).
  { intros Hnil. rewrite generate_scenarios_empty in H by exact Hnil.
    discriminate. }
  assert (HT : 1 <= Py.len results).
  { pose proof (len_nonneg results). pose proof (len_zero_iff results) as Hz.
    destruct (Z.eq_dec (Py.len results) 0) as [Hzero|Hpos]; [| lia].
    apply Hz in Hzero. contradiction. }
  split; [exact HT |].
  rewrite generate_scenarios_nonempty in H by exact Hne. fold results in H.
  apply for_each_length in H as (Ha & Hb & Hc); [| lia].
  change (Py.len (@nil MultiHopScenario)) with 0 in *.
  destruct (Z.le_gt_cases n 0) as [Hn|Hn].
  - rewrite (Hc Hn). change (Py.len (@nil MultiHopScenario)) with 0. lia.
  - destruct (Z.le_gt_cases (n / Py.len results) 1) as [Hq|Hq].
    + assert (Hle : Py.len scen <= n) by (apply Hb; lia). lia.
    + pose proof (Z.mul_div_le n (Py.len results)) as Hm.
      rewrite Z.max_r in Ha by lia. lia.
Qed.

(** An iteration fails exactly as [iteration_raises] says. *)
Lemma loop_body_raises self n ps cb q scen t w e w' :
  loop_body self n ps cb q scen t w = (inl e, w') <->
  iteration_raises self n ps cb q scen t w e w'.
Proof.
  split.
  - destruct t as [[a r] b].
    destruct (Z.ltb_spec (Py.len scen) n) as [Hlt|Hge].
    + destruct (rel_properties r !! "overlapped_items") as [[|item items]|] eqn:Hp.
      * rewrite loop_body_empty by exact Hp. discriminate.
      * rewrite (loop_body_items self n ps cb q scen a r b w item items Hlt Hp).
        cbn zeta.
        destruct (generate _ _ _ _) as [[err|concepts] e1] eqn:Hg.
        { intros [= <- <-]. eapply raises_prompt; eassumption. }
        destruct (prepare_combinations _ _ _ _ _) as [err|base] eqn:Hc.
        { intros [= <- <-]. eapply raises_prepare; eassumption. }
        destruct (sample_diverse_combinations _ _ _) as [[err|sampled] e2] eqn:Hs.
        { intros [= <- <-]. eapply raises_sample; eassumption. }
        discriminate.
      * rewrite loop_body_missing by assumption. intros [= <- <-].
        apply raises_missing; assumption.
    + rewrite loop_body_full by exact Hge. discriminate.
  - intros Hr.
    destruct Hr as [a r b w Hlt Hp
                   | a r b w item items err e1 Hlt Hp Hg
                   | a r b w item items concepts err e1 Hlt Hp Hg Hc
                   | a r b w item items concepts base err e1 e2 Hlt Hp Hg Hc Hs].
    + apply loop_body_missing; assumption.
    + rewrite (loop_body_items self n ps cb q scen a r b w item items Hlt Hp).
      cbn zeta. rewrite Hg. reflexivity.
    + rewrite (loop_body_items self n ps cb q scen a r b w item items Hlt Hp).
      cbn zeta. rewrite Hg, Hc. reflexivity.
    + rewrite (loop_body_items self n ps cb q scen a r b w item items Hlt Hp).
      cbn zeta. rewrite Hg, Hc, Hs. reflexivity.
Qed.


End Facts.

(** * The claims *)

Section Claims.
Context {X : External}.
Import MyMultiHopQuery.

(** C2: the per-triplet quota is [max(1, n // T)], with [T] the number of
    triplets the query returned, whenever [T >= 1]; it is at least 1 (for
    every [n], so for every [n >= 0]), and it is the quota each iteration
    of the loop of [_generate_scenarios] samples with. *)
Theorem quota_is_max_one_floordiv globals self n knowledge_graph
    (ps : list Persona) (cb : Callbacks) (w : World) :
  let results := find_two_nodes_single_rel (kg globals) relationship_condition in
  1 <= Py.len results ->
  num_sample_per_triplet n results w = (inr (Z.max 1 (n / Py.len results)), w) /\
  1 <= Z.max 1 (n / Py.len results) /\
  _generate_scenarios globals self n knowledge_graph ps cb w =
    for_each (loop_body self n ps cb (Z.max 1 (n / Py.len results))) results [] w.
Proof.
  intros results HT.
  assert (Hne : results <> []).
  { intros Hnil. apply len_zero_iff in Hnil. lia. }
  split; [apply quota_nonempty; exact Hne |].
  split; [lia |].
  apply generate_scenarios_nonempty. exact Hne.
Qed.

(** C3: the relationship condition holds of a relationship of type
    ["keyphrases_overlap"] and of no relationship of another type. *)
Theorem relationship_condition_exact (rel : Relationship) :
  (rel_type rel = "keyphrases_overlap" -> relationship_condition rel = true) /\
  (rel_type rel <> "keyphrases_overlap" -> relationship_condition rel = false).
Proof.
  split.
  - intros Heq. apply relationship_condition_true. exact Heq.
  - intros Hne. destruct (relationship_condition rel) eqn:Hc; [| reflexivity].
    apply relationship_condition_true in Hc. contradiction.
Qed.

(** C4, as amended: the method installs no handler. When the query returns
    at least one triplet, an iteration of the loop fails exactly in the
    cases of [iteration_raises]: reached with fewer than [n] scenarios, on
    a relationship without ["overlapped_items"] (the [KeyError] of the
    subscript, the world as it was), or on keywords when the prompt, the
    preparation of the combinations or the sampling it calls on this
    triplet's data fails (that call's error, the world as that call left
    it); and the method fails exactly when some iteration fails after the
    iterations before it succeeded, with that iteration's exception and
    world unchanged. *)
Theorem failures_propagate_unchanged globals self n knowledge_graph
    (ps : list Persona) (cb : Callbacks) (w : World) (e : Exception) (w' : World) :
  let results := find_two_nodes_single_rel (kg globals) relationship_condition in
  let quota := Z.max 1 (n / Py.len results) in
  results <> [] ->
  (forall scen t w0 e0 w1,
     loop_body self n ps cb quota scen t w0 = (inl e0, w1) <->
     iteration_raises self n ps cb quota scen t w0 e0 w1) /\
  (_generate_scenarios globals self n knowledge_graph ps cb w = (inl e, w') <->
   exists pre t post scen0 w0,
     results = pre ++ t :: post /\
     for_each (loop_body self n ps cb quota) pre [] w = (inr scen0, w0) /\
     iteration_raises self n ps cb quota scen0 t w0 e w').
Proof.
  intros results quota Hne. split.
  - intros scen t w0 e0 w1. apply loop_body_raises.
  - rewrite generate_scenarios_nonempty by exact Hne. fold results quota.
    rewrite for_each_error. split.
    + intros (pre & t & post & scen0 & w0 & Hs & Hpre & Hb).
      exists pre, t, post, scen0, w0. split; [exact Hs |]. split; [exact Hpre |].
      apply loop_body_raises. exact Hb.
    + intros (pre & t & post & scen0 & w0 & Hs & Hpre & Hb).
      exists pre, t, post, scen0, w0. split; [exact Hs |]. split; [exact Hpre |].
      apply loop_body_raises. exact Hb.
Qed.

(** The division by zero on the graph the query runs on, the notebook's
    [kg]: when it has no relationship of type ["keyphrases_overlap"], the
    query result is empty and the method raises [ZeroDivisionError],
    returning no list and calling nothing; and the method raises
    [ZeroDivisionError] exactly when the query result is empty. *)
Theorem empty_query_raises_zero_division {L : ExternalLaws X}
    globals self n knowledge_graph (ps : list Persona) (cb : Callbacks) (w : World) :
  ((forall r, In r (relationships (kg globals)) ->
              rel_type r <> "keyphrases_overlap") ->
   find_two_nodes_single_rel (kg globals) relationship_condition = [] /\
   _generate_scenarios globals self n knowledge_graph ps cb w =
     (inl ZeroDivisionError, w)) /\
  ((_generate_scenarios globals self n knowledge_graph ps cb w).1 =
     inl ZeroDivisionError <->
   find_two_nodes_single_rel (kg globals) relationship_condition = []).
Proof.
  split.
  - intros Hno. pose proof (query_empty (kg globals) Hno) as Hnil.
    split; [exact Hnil |]. apply generate_scenarios_empty. exact Hnil.
  - split.
    + intros Hz.
      destruct (find_two_nodes_single_rel (kg globals) relationship_condition)
        as [|t rest] eqn:Hq; [reflexivity |]. exfalso.
      destruct (_generate_scenarios globals self n knowledge_graph ps cb w)
        as [r w'] eqn:Hrun. cbn in Hz. subst r.
      apply generate_scenarios_error in Hrun as [Hk | (err & Hl & _)];
        [discriminate | discriminate |].
      rewrite Hq. discriminate.
    + intros Hnil. rewrite generate_scenarios_empty by exact Hnil. reflexivity.
Qed.

(** C6, as amended: in every run that returns, the query gave [T >= 1]
    triplets and, each sampling call returning at most the quota, the
    list has at most [max(0, n)] scenarios: for [n >= 0] its length is
    bounded by [n], hence also by [(n - 1) + max(1, n // T)]. *)
Theorem returned_length_at_most_n {L : ExternalLaws X}
    globals self n knowledge_graph (ps : list Persona) (cb : Callbacks)
    (w : World) (scen : list MultiHopScenario) (w' : World) :
  let T := Py.len (find_two_nodes_single_rel (kg globals) relationship_condition) in
  _generate_scenarios globals self n knowledge_graph ps cb w = (inr scen, w') ->
  1 <= T /\
  Py.len scen <= Z.max 0 n /\
  (0 <= n -> Py.len scen <= n /\ Py.len scen <= (n - 1) + Z.max 1 (n / T)).
Proof.
  intros T H. apply generate_scenarios_length in H as [HT Hlen].
  split; [exact HT |]. split; [exact Hlen |]. intros Hn. lia.
Qed.


End Claims.

(** ** The claims on concrete runs *)

Section Runs.
Import MyMultiHopQuery Reference.

(** C1: the query does not run on the graph passed as [knowledge_graph].
    The result of the method is the same for every two graphs passed as
    that argument; it follows the notebook's module-level [kg]: with [kg]
    holding an overlap relationship and an empty graph passed, a scenario
    on the nodes of [kg] is returned; with [kg] empty and the graph with
    the relationship passed, the division by the number of triplets
    fails. *)
Theorem generate_scenarios_ignores_knowledge_graph_argument :
  (forall (X : External) globals self n g1 g2 ps cb w,
     _generate_scenarios globals self n g1 ps cb w =
     _generate_scenarios globals self n g2 ps cb w) /\
  (exists scenario w',
     run kg_overlap 1 kg_empty 5 = (inr [scenario], w') /\
     sc_nodes scenario = [node_a; node_b]) /\
  (run kg_empty 1 kg_overlap 5).1 = inl ZeroDivisionError.
Proof.
  split; [reflexivity |]. split.
  - eexists _, _. split; vm_compute; reflexivity.
  - vm_compute. reflexivity.
Qed.

Lemma quota_is_max_one_floordiv_witness :
  num_sample_per_triplet 10
    (find_two_nodes_single_rel kg_no_items relationship_condition) (world 3) =
  (inr 5, world 3).
Proof.
  refine (proj1 (quota_is_max_one_floordiv {| kg := kg_no_items |} self 10
                   kg_no_items persona_list tt (world 3) _)).
  vm_compute. discriminate.
Defined.

Lemma relationship_condition_exact_witness :
  relationship_condition (rel_overlap node_a node_b items_ab) = true /\
  relationship_condition (rel_similar node_a node_b) = false.
Proof.
  split.
  - apply (proj1 (relationship_condition_exact _)). reflexivity.
  - apply (proj2 (relationship_condition_exact _)). vm_compute. discriminate.
Defined.

(** C4, as stated, fails: on a graph without relationships the method
    fails with [ZeroDivisionError], raised by the division in its own
    body and by no library call. *)
Lemma zero_division_raised_by_method :
  exists e,
    run kg_empty 10 kg_empty 3 = (inl e, world 3) /\
    raised_in_library e = false.
Proof. exists ZeroDivisionError. split; reflexivity. Qed.

Lemma failures_propagate_unchanged_witness :
  find_two_nodes_single_rel kg_overlap relationship_condition <> [] /\
  run kg_overlap 10 kg_overlap 0 =
    (inl (LibraryError "language model unavailable"),
     asked (world 0)
       {| themes := Py.dict_keys items_ab; personas := persona_list |} 0%nat).
Proof.
  assert (Hne : find_two_nodes_single_rel kg_overlap relationship_condition <> []).
  { vm_compute. discriminate. }
  split; [exact Hne |].
  apply (proj2 (failures_propagate_unchanged (X := library)
                  {| kg := kg_overlap |} self 10 kg_overlap persona_list tt
                  (world 0)
                  (@LibraryError library "language model unavailable")
                  (asked (world 0)
                     {| themes := Py.dict_keys items_ab;
                        personas := persona_list |} 0%nat)
                  Hne)).
  exists [], (node_a, rel_overlap node_a node_b items_ab, node_b), [], [], (world 0).
  split; [reflexivity |]. split; [reflexivity |].
  apply (raises_prompt (X := library) self _ persona_list tt _ []
           node_a (rel_overlap node_a node_b items_ab) node_b (world 0)
           ("diversity", "diversity") [("inclusion", "inclusion goals")]
           "language model unavailable" 0%nat).
  - vm_compute. reflexivity.
  - vm_compute. reflexivity.
  - reflexivity.
Defined.

Lemma empty_query_raises_zero_division_witness :
  run kg_similar 10 kg_similar 3 = (inl ZeroDivisionError, world 3).
Proof.
  refine (proj2 (proj1 (empty_query_raises_zero_division (L := reference_laws)
                          {| kg := kg_similar |} self 10 kg_similar
                          persona_list tt (world 3)) _)).
  intros r [<- | []]. vm_compute. discriminate.
Defined.

(** C5: the division by zero follows the notebook's [kg], not the graph the
    method is called on. Called on a graph without any relationship while
    [kg] holds an overlap relationship, the method raises nothing and
    returns a scenario; called on a graph with an overlap relationship while
    [kg] has none, it raises [ZeroDivisionError]. When the graph passed is
    [kg] itself, as in the notebook's call, and has no relationship of type
    ["keyphrases_overlap"], the method raises [ZeroDivisionError]. *)
Theorem zero_division_follows_module_level_graph :
  (relationships kg_empty = [] /\
   exists scenario w', run kg_overlap 1 kg_empty 5 = (inr [scenario], w')) /\
  ((exists r, r ∈ relationships kg_overlap /\ rel_type r = "keyphrases_overlap") /\
   run kg_empty 1 kg_overlap 5 = (inl ZeroDivisionError, world 5)) /\
  (forall (X : External) (L : ExternalLaws X) globals self n ps cb w,
     (forall r, In r (relationships (kg globals)) ->
                rel_type r <> "keyphrases_overlap") ->
     _generate_scenarios globals self n (kg globals) ps cb w =
       (inl ZeroDivisionError, w)).
Proof.
  split; [| split].
  - split; [reflexivity |]. eexists _, _. vm_compute. reflexivity.
  - split; [| vm_compute; reflexivity].
    exists (rel_overlap node_a node_b items_ab). split; [| reflexivity].
    apply list_elem_of_In. left. reflexivity.
  - intros X L globals self0 n ps cb w Hno.
    rewrite generate_scenarios_empty; [reflexivity |].
    apply query_empty. exact Hno.
Qed.

(** C6, as stated, fails twice. For [n = -1] and one triplet the list
    returned is empty, longer than the claimed bound
    [(n - 1) + max(1, n // T) = -1]. And for [n >= 0] no run returns more
    than [n] scenarios when each sampling call returns at most the quota,
    so the length is bounded by [n]. *)
Lemma returned_length_claim_fails :
  (let T := Py.len (find_two_nodes_single_rel kg_overlap relationship_condition) in
   run kg_overlap (-1) kg_overlap 3 = (inr [], world 3) /\
   (-1 - 1) + Py.max 1 (-1 / T) < Py.len (@nil MultiHopScenario)) /\
  (forall (X : External) (L : ExternalLaws X) globals self n knowledge_graph
          ps cb w scen w',
     0 <= n ->
     _generate_scenarios globals self n knowledge_graph ps cb w = (inr scen, w') ->
     ~ n < Py.len scen).
Proof.
  split.
  - cbv zeta. split; vm_compute; reflexivity.
  - intros X L globals self0 n knowledge_graph ps cb w scen w' Hn H.
    apply generate_scenarios_length in H as [_ Hlen]. lia.
Qed.

Lemma returned_length_at_most_n_witness :
  exists scen w',
    run kg_no_items 3 kg_no_items 5 = (inr scen, w') /\
    Py.len scen <= Z.max 0 3.
Proof.
  destruct (run kg_no_items 3 kg_no_items 5) as [[e | scen] w'] eqn:Hrun.
  - vm_compute in Hrun. discriminate Hrun.
  - exists scen, w'. split; [reflexivity |].
    exact (proj1 (proj2 (returned_length_at_most_n (L := reference_laws)
                           {| kg := kg_no_items |} self 3 kg_no_items
                           persona_list tt (world 5) scen w' Hrun))).
Defined.


End Runs.

(** ** The order of the notebook's steps *)

Lemma position_lookup (s : Notebook.Step) (steps : list Notebook.Step) (i : nat) :
  Notebook.position s steps = Some i -> steps !! i = Some s.
Proof.
  revert i. induction steps as [|s' rest IH]; intros i H; [discriminate |].
  cbn [Notebook.position] in H. destruct (decide (s = s')) as [->|Hne].
  - injection H as <-. reflexivity.
  - destruct (Notebook.position s rest) as [j|] eqn:Hp; [| discriminate].
    injection H as <-. cbn. apply IH. reflexivity.
Qed.

Lemma position_precedes (steps : list Notebook.Step) (a b : Notebook.Step) (i j : nat) :
  Notebook.position a steps = Some i ->
  Notebook.position b steps = Some j ->
  (i < j)%nat ->
  Notebook.precedes steps a b.
Proof.
  intros Ha Hb Hlt. exists i, j.
  split; [apply position_lookup; exact Ha |].
  split; [apply position_lookup; exact Hb | exact Hlt].
Qed.

(** C10: running the cells top to bottom raises no [NameError] and performs
    the steps so that loading the documents precedes populating the graph,
    which precedes applying the transforms, which precedes configuring the
    personas, which precedes defining the synthesizer subclass, which
    precedes generating the scenarios, which precedes generating the sample;
    each of these steps is performed once, and the recorded execution counts
    of their cells increase in the same order. *)
Theorem notebook_steps_in_stated_order :
  exists env steps,
    Notebook.run_all [] Notebook.cells = Some (env, steps) /\
    List.filter (fun s => bool_decide (s ∈ Notebook.stated_order)) steps =
      Notebook.stated_order /\
    Notebook.precedes steps Notebook.LoadDocuments Notebook.PopulateGraph /\
    Notebook.precedes steps Notebook.PopulateGraph Notebook.ApplyTransforms /\
    Notebook.precedes steps Notebook.ApplyTransforms Notebook.ConfigurePersonas /\
    Notebook.precedes steps Notebook.ConfigurePersonas Notebook.DefineSynthesizer /\
    Notebook.precedes steps Notebook.DefineSynthesizer Notebook.GenerateScenarios /\
    Notebook.precedes steps Notebook.GenerateScenarios Notebook.GenerateSample /\
    omap Notebook.executed_at Notebook.stated_order =
      [4; 5; 8; 79; 137; 138; 143]%nat /\
    Notebook.increasing (omap Notebook.executed_at Notebook.stated_order) = true.
Proof.
  eexists _, _. split; [vm_compute; reflexivity |].
  split; [vm_compute; reflexivity |].
  repeat (split; [eapply position_precedes;
                  [vm_compute; reflexivity | vm_compute; reflexivity | lia] |]).
  split; vm_compute; reflexivity.
Qed.

(** ** The configuration file *)

(** C8: the file holds the lint rule selection of ruff ([select], [ignore]),
    the import-sort grouping ([known-first-party], [combine-as-imports]),
    the line length 88 of ruff and of black, the basic mode of pyright over
    the two package paths, and the test paths of pytest; every table other
    than the empty [workspace] header is a table of settings of one of the
    tools ruff, black, pyright and pytest. *)
Theorem workspace_toml_declares_tool_settings :
  Workspace.get "tool.ruff" "select" =
    Some (Workspace.Array [Workspace.Str "E"; Workspace.Str "F"; Workspace.Str "I"]) /\
  Workspace.get "tool.ruff" "ignore" =
    Some (Workspace.Array [Workspace.Str "E501"]) /\
  Workspace.get "tool.ruff.lint.isort" "known-first-party" =
    Some (Workspace.Array [Workspace.Str "ragas"; Workspace.Str "ragas_experimental"]) /\
  Workspace.get "tool.ruff.lint.isort" "combine-as-imports" =
    Some (Workspace.Bool true) /\
  Workspace.get "tool.ruff" "line-length" = Some (Workspace.Int 88) /\
  Workspace.get "tool.black" "line-length" = Some (Workspace.Int 88) /\
  Workspace.get "tool.pyright" "typeCheckingMode" = Some (Workspace.Str "basic") /\
  Workspace.get "tool.pyright" "include" =
    Some (Workspace.Array [Workspace.Str "ragas/src/ragas";
                           Workspace.Str "experimental/ragas_experimental"]) /\
  Workspace.get "tool.pytest.ini_options" "testpaths" =
    Some (Workspace.Array [Workspace.Str "ragas/tests"]) /\
  Workspace.configured_tools = ["ruff"; "ruff"; "black"; "pyright"; "pytest"] /\
  Workspace.other_tables = [("workspace", [])].
Proof. repeat split; vm_compute; reflexivity. Qed.

(** * Further properties of the notebook's code *)

(** ** Themes: the keys of [dict(overlapped_keywords)] *)

Lemma mem_true (k : string) (seen : list string) :
  Py.mem k seen = true <-> k ∈ seen.
Proof.
  unfold Py.mem. rewrite existsb_exists. split.
  - intros (x & Hin & Heq). apply String.eqb_eq in Heq. subst x.
    apply list_elem_of_In. exact Hin.
  - intros Hin. exists k. split; [apply list_elem_of_In; exact Hin |].
    apply String.eqb_refl.
Qed.

Lemma mem_false (k : string) (seen : list string) :
  Py.mem k seen = false <-> k ∉ seen.
Proof.
  rewrite <- mem_true. destruct (Py.mem k seen); split; congruence.
Qed.

Lemma dict_keys_from_elem (seen : list string) (items : list (string * string)) k :
  k ∈ Py.dict_keys_from seen items <-> (k ∉ seen) /\ exists v, (k, v) ∈ items.
Proof.
  revert seen. induction items as [|[k0 v0] rest IH]; intros seen.
  - cbn. split; [intros H; inversion H |].
    intros (_ & v & H). inversion H.
  - cbn [Py.dict_keys_from]. destruct (Py.mem k0 seen) eqn:Hm.
    + apply mem_true in Hm. rewrite IH. split.
      * intros (Hs & v & Hv). split; [exact Hs |]. exists v. now right.
      * intros (Hs & v & Hv). split; [exact Hs |].
        apply elem_of_cons in Hv as [[= -> ->] | Hv]; [contradiction |].
        now exists v.
    + apply mem_false in Hm. rewrite elem_of_cons, IH. split.
      * intros [-> | (Hs & v & Hv)].
        -- split; [exact Hm |]. exists v0. now left.
        -- split; [intros Hin; apply Hs; now right |]. exists v. now right.
      * intros (Hs & v & Hv).
        destruct (decide (k = k0)) as [-> | Hne]; [now left | right].
        split; [intros Hin; apply elem_of_cons in Hin as [? | ?]; contradiction |].
        apply elem_of_cons in Hv as [[= -> ->] | Hv]; [contradiction |].
        now exists v.
Qed.

Lemma dict_keys_from_NoDup (seen : list string) (items : list (string * string)) :
  NoDup (Py.dict_keys_from seen items).
Proof.
  revert seen. induction items as [|[k0 v0] rest IH]; intros seen.
  - constructor.
  - cbn [Py.dict_keys_from]. destruct (Py.mem k0 seen); [apply IH |].
    constructor; [| apply IH].
    rewrite dict_keys_from_elem. intros (Hs & _). apply Hs. now left.
Qed.

Lemma dict_keys_from_sublist (seen : list string) (items : list (string * string)) :
  sublist (Py.dict_keys_from seen items) items.*1.
Proof.
  revert seen. induction items as [|[k0 v0] rest IH]; intros seen.
  - constructor.
  - cbn [Py.dict_keys_from fmap list_fmap fst].
    destruct (Py.mem k0 seen).
    + apply sublist_cons. apply IH.
    + apply sublist_skip. apply IH.
Qed.

Lemma dict_keys_from_distinct (seen : list string) (items : list (string * string)) :
  NoDup items.*1 -> (forall k, k ∈ items.*1 -> k ∉ seen) ->
  Py.dict_keys_from seen items = items.*1.
Proof.
  revert seen. induction items as [|[k0 v0] rest IH]; intros seen Hnd Hfresh.
  - reflexivity.
  - cbn [fmap list_fmap fst] in *. apply NoDup_cons in Hnd as [Hk0 Hnd].
    cbn [Py.dict_keys_from].
    assert (Hm : Py.mem k0 seen = false).
    { apply mem_false. apply Hfresh. now left. }
    rewrite Hm. f_equal. apply IH; [exact Hnd |].
    intros k Hk Hin. apply elem_of_cons in Hin as [-> | Hin].
    + contradiction.
    + apply (Hfresh k); [now right | exact Hin].
Qed.

(** The keys after a first pair: its key, then the keys of the rest without
    it. [seen'] holds [k] besides what [seen] holds. *)
Lemma dict_keys_from_filter (k : string) (seen seen' : list string)
    (items : list (string * string)) :
  (forall x, Py.mem x seen' = String.eqb x k || Py.mem x seen) ->
  Py.dict_keys_from seen' items =
  List.filter (fun x => negb (String.eqb x k)) (Py.dict_keys_from seen items).
Proof.
  revert seen seen'. induction items as [|[k0 v0] rest IH]; intros seen seen' H.
  - reflexivity.
  - cbn [Py.dict_keys_from]. rewrite (H k0).
    destruct (String.eqb_spec k0 k) as [-> | Hne]; cbn [orb].
    + destruct (Py.mem k seen) eqn:Hm.
      * apply IH. exact H.
      * cbn [List.filter]. rewrite String.eqb_refl. cbn [negb].
        apply IH. intros x. rewrite (H x). unfold Py.mem. cbn [existsb].
        destruct (String.eqb x k); reflexivity.
    + destruct (Py.mem k0 seen) eqn:Hm.
      * apply IH. exact H.
      * cbn [List.filter].
        destruct (String.eqb_spec k0 k) as [Heq | _]; [contradiction |].
        cbn [negb]. f_equal. apply IH. intros x.
        unfold Py.mem in *. cbn [existsb]. rewrite (H x).
        destruct (String.eqb x k0), (String.eqb x k); reflexivity.
Qed.

(** The keys after one more pair at the end: a key already there keeps its
    place, a new key goes last. *)
Lemma dict_keys_from_snoc (seen : list string) (items : list (string * string))
    (k v : string) :
  Py.dict_keys_from seen (items ++ [(k, v)]) =
  Py.dict_keys_from seen items ++
    (if Py.mem k seen || Py.mem k (Py.dict_keys_from seen items) then [] else [k]).
Proof.
  revert seen. induction items as [|[k0 v0] rest IH]; intros seen.
  - cbn. rewrite orb_false_r. destruct (Py.mem k seen); reflexivity.
  - cbn [app Py.dict_keys_from]. destruct (Py.mem k0 seen) eqn:Hm.
    + apply IH.
    + rewrite IH. cbn [app]. f_equal. f_equal.
      unfold Py.mem. cbn [existsb].
      destruct (String.eqb k k0), (existsb (String.eqb k) seen); reflexivity.
Qed.

Section Further.
Context {X : External}.
Import MyMultiHopQuery.

Implicit Types (self : Self) (n q : Z) (ps : list Persona) (cb : Callbacks).
Implicit Types (scen : list MultiHopScenario) (w : World) (t : Triplet).

(** ** The loop once [n] scenarios are collected, and on empty keywords *)

Lemma for_each_full self n ps cb q (results : list Triplet) scen w :
  n <= Py.len scen ->
  for_each (loop_body self n ps cb q) results scen w = (inr scen, w).
Proof.
  intros Hn. induction results as [|t rest IH]; [reflexivity |].
  cbn [for_each]. rewrite (bind_inr _ _ _ _ _ (loop_body_full self n ps cb q scen t w Hn)).
  exact IH.
Qed.

Lemma for_each_all_empty self n ps cb q (results : list Triplet) scen w :
  Forall (fun t => rel_properties t.1.2 !! "overlapped_items" = Some []) results ->
  for_each (loop_body self n ps cb q) results scen w = (inr scen, w).
Proof.
  intros Hall. induction Hall as [|[[a r] b] rest Ht _ IH]; [reflexivity |].
  cbn [for_each fst snd] in *.
  rewrite (bind_inr _ _ _ _ _ (loop_body_empty self n ps cb q scen a r b w Ht)).
  exact IH.
Qed.

(** ** Where the returned scenarios come from *)

(** A successful iteration returns the list as it was, or the list followed
    by what sampling on this triplet returned. *)
Lemma loop_body_success self n ps cb q scen t w scen' w' :
  loop_body self n ps cb q scen t w = (inr scen', w') ->
  scen' = scen \/
  exists sampled, scen' = scen ++ sampled /\
                  forall s, s ∈ sampled -> drawn_from self ps cb q t s.
Proof.
  destruct t as [[a r] b].
  destruct (Z.ltb_spec (Py.len scen) n) as [Hlt|Hge].
  - destruct (rel_properties r !! "overlapped_items") as [[|item items]|] eqn:Hp.
    + rewrite loop_body_empty by exact Hp. intros [= <- <-]. now left.
    + rewrite (loop_body_items self n ps cb q scen a r b w item items Hlt Hp).
      cbn zeta.
      destruct (generate _ _ _ _) as [[err|concepts] e1] eqn:Hg; [discriminate |].
      destruct (prepare_combinations _ _ _ _ _) as [err|base] eqn:Hc;
        [discriminate |].
      destruct (sample_diverse_combinations _ _ _) as [[err|sampled] e2] eqn:Hs;
        [discriminate |].
      intros [= <- <-]. right. exists sampled. split; [reflexivity |].
      intros s Hin. unfold drawn_from. cbn [fst snd].
      exists (item :: items), concepts, base, (ext w), e1, e2, sampled.
      repeat split; try assumption. discriminate.
    + rewrite loop_body_missing by assumption. discriminate.
  - rewrite loop_body_full by exact Hge. intros [= <- <-]. now left.
Qed.

Lemma for_each_drawn self n ps cb q (all results : list Triplet) scen w scen' w' :
  (forall t, t ∈ results -> t ∈ all) ->
  (forall s, s ∈ scen -> exists t, t ∈ all /\ drawn_from self ps cb q t s) ->
  for_each (loop_body self n ps cb q) results scen w = (inr scen', w') ->
  forall s, s ∈ scen' -> exists t, t ∈ all /\ drawn_from self ps cb q t s.
Proof.
  revert scen w. induction results as [|t rest IH]; intros scen w Hsub Hinv H.
  - cbn in H. injection H as <- <-. exact Hinv.
  - cbn [for_each] in H. apply bind_inv_inr in H as (s1 & w1 & H1 & H2).
    apply (IH s1 w1); [| | exact H2].
    + intros t' Ht'. apply Hsub. now right.
    + apply loop_body_success in H1 as [-> | (sampled & -> & Hd)]; [exact Hinv |].
      intros s Hs. apply elem_of_app in Hs as [Hs | Hs]; [now apply Hinv |].
      exists t. split; [apply Hsub; now left | now apply Hd].
Qed.

(** ** The inputs of the prompt *)

Lemma prompt_input_of_inv ps t data :
  prompt_input_of ps t = Some data ->
  personas data = ps /\ NoDup (themes data) /\
  exists items,
    rel_properties t.1.2 !! "overlapped_items" = Some items /\ items <> [] /\
    forall k, k ∈ themes data <-> exists v, (k, v) ∈ items.
Proof.
  unfold prompt_input_of.
  destruct (rel_properties t.1.2 !! "overlapped_items") as [[|item items]|];
    try discriminate.
  intros [= <-]. cbn [themes personas]. split; [reflexivity |].
  split; [apply dict_keys_from_NoDup |].
  exists (item :: items). split; [reflexivity |]. split; [discriminate |].
  intros k. unfold Py.dict_keys. rewrite dict_keys_from_elem. split.
  - intros [_ H]. exact H.
  - intros H. split; [| exact H]. intros Hin. inversion Hin.
Qed.

End Further.

(** ** Properties of the method *)

Section MethodProperties.
Context {X : External}.
Import MyMultiHopQuery.

(** X1: every persona-matching prompt a run invokes is given the persona list
    passed to the method and themes without repetition, which are exactly the
    first components of the ["overlapped_items"] pairs of one triplet of the
    query result whose list is not empty. *)
Theorem prompt_inputs_well_formed globals self n knowledge_graph
    (ps : list Persona) (cb : Callbacks) (w : World) :
  exists calls,
    prompt_calls (_generate_scenarios globals self n knowledge_graph ps cb w).2 =
      prompt_calls w ++ calls /\
    Forall (fun data =>
              personas data = ps /\ NoDup (themes data) /\
              exists t items,
                t ∈ find_two_nodes_single_rel (kg globals) relationship_condition /\
                rel_properties t.1.2 !! "overlapped_items" = Some items /\
                items <> [] /\
                forall k, k ∈ themes data <-> exists v, (k, v) ∈ items)
           calls.
Proof.
  assert (Hcalls : exists calls,
            prompt_calls (_generate_scenarios globals self n knowledge_graph ps cb w).2 =
              prompt_calls w ++ calls /\
            sublist calls
              (omap (prompt_input_of ps)
                 (find_two_nodes_single_rel (kg globals) relationship_condition))).
  { destruct (find_two_nodes_single_rel (kg globals) relationship_condition)
      as [|t rest] eqn:Hq.
    - exists []. rewrite generate_scenarios_empty by exact Hq.
      cbn. rewrite app_nil_r. split; [reflexivity | constructor].
    - rewrite generate_scenarios_nonempty by (rewrite Hq; discriminate).
      rewrite Hq. apply for_each_calls. }
  destruct Hcalls as (calls & Heq & Hsub). exists calls. split; [exact Heq |].
  apply Forall_forall. intros data Hin.
  apply (elem_of_sublist _ _ _ Hin) in Hsub.
  apply list_elem_of_omap in Hsub as (t & Ht & Hdata).
  apply prompt_input_of_inv in Hdata as (Hp & Hnd & items & Hitems & Hne & Hk).
  split; [exact Hp |]. split; [exact Hnd |]. exists t, items. auto.
Qed.

(** X2: the themes are the first components in the order of their first
    occurrence. They are a subsequence of the first components, and all of
    them when none repeats; with one more pair in front, its key comes first
    and is removed from the themes of the rest; with one more pair at the
    end, a key that is already a theme leaves the themes as they are and a
    new key is added last. *)
Theorem themes_keep_first_occurrences (items : list (string * string)) :
  sublist (Py.dict_keys items) items.*1 /\
  (NoDup items.*1 -> Py.dict_keys items = items.*1) /\
  (forall k v,
     Py.dict_keys ((k, v) :: items) =
     k :: List.filter (fun x => negb (String.eqb x k)) (Py.dict_keys items)) /\
  (forall k v,
     Py.dict_keys (items ++ [(k, v)]) =
     if Py.mem k (Py.dict_keys items) then Py.dict_keys items
     else Py.dict_keys items ++ [k]).
Proof.
  split; [apply dict_keys_from_sublist |]. split.
  { intros Hnd. apply dict_keys_from_distinct; [exact Hnd |].
    intros k _ Hin. inversion Hin. }
  split.
  - intros k v. unfold Py.dict_keys. cbn [Py.dict_keys_from Py.mem existsb].
    f_equal. apply dict_keys_from_filter. intros x. reflexivity.
  - intros k v. unfold Py.dict_keys. rewrite dict_keys_from_snoc.
    change (Py.mem k []) with false. cbn [orb].
    destruct (Py.mem k (Py.dict_keys_from [] items));
      [apply app_nil_r | reflexivity].
Qed.

(** X3: when the query returns at least one triplet, the method returns the
    empty list and leaves the world untouched (nothing of the library is
    called after the query) if [n <= 0], or if every triplet has an empty
    ["overlapped_items"] list. *)
Theorem returns_empty_without_calls globals self n knowledge_graph
    (ps : list Persona) (cb : Callbacks) (w : World) :
  find_two_nodes_single_rel (kg globals) relationship_condition <> [] ->
  n <= 0 \/
  Forall (fun t => rel_properties t.1.2 !! "overlapped_items" = Some [])
         (find_two_nodes_single_rel (kg globals) relationship_condition) ->
  _generate_scenarios globals self n knowledge_graph ps cb w = (inr [], w).
Proof.
  intros Hne Hcase. rewrite generate_scenarios_nonempty by exact Hne.
  destruct Hcase as [Hn | Hall].
  - apply for_each_full. exact Hn.
  - apply for_each_all_empty. exact Hall.
Qed.

(** X4: once the loop holds [n] scenarios or more the remaining triplets are
    skipped: the method returns the list and the world reached then,
    whatever the remaining triplets are, also when one of them has no
    ["overlapped_items"] property. *)
Theorem remaining_triplets_skipped globals self n knowledge_graph
    (ps : list Persona) (cb : Callbacks) (w : World)
    (pre post : list Triplet) (scen : list MultiHopScenario) (w1 : World) :
  let results := find_two_nodes_single_rel (kg globals) relationship_condition in
  results = pre ++ post ->
  results <> [] ->
  for_each (loop_body self n ps cb (Z.max 1 (n / Py.len results))) pre [] w =
    (inr scen, w1) ->
  n <= Py.len scen ->
  _generate_scenarios globals self n knowledge_graph ps cb w = (inr scen, w1).
Proof.
  intros results Hsplit Hne Hpre Hfull.
  rewrite generate_scenarios_nonempty by exact Hne. fold results.
  rewrite Hsplit at 2. rewrite for_each_app.
  rewrite (bind_inr _ _ _ _ _ Hpre). apply for_each_full. exact Hfull.
Qed.

(** X5: with a sampling that returns at most the quota, a run on [T]
    triplets with [n >= T] returns at most [T * (n // T)] scenarios: fewer
    than [n] whenever [T] does not divide [n]. *)
Theorem fewer_than_requested {L : ExternalLaws X} globals self n knowledge_graph
    (ps : list Persona) (cb : Callbacks) (w : World)
    (scen : list MultiHopScenario) (w' : World) :
  let T := Py.len (find_two_nodes_single_rel (kg globals) relationship_condition) in
  _generate_scenarios globals self n knowledge_graph ps cb w = (inr scen, w') ->
  T <= n ->
  Py.len scen <= T * (n / T) /\ (n mod T <> 0 -> Py.len scen < n).
Proof.
  intros T H HTn.
  pose proof (generate_scenarios_length _ _ _ _ _ _ _ _ _ H) as [HT _].
  fold T in HT.
  assert (Hne : find_two_nodes_single_rel (kg globals) relationship_condition <> []).
  { intros Hnil. apply len_zero_iff in Hnil. unfold T in HT. lia. }
  rewrite generate_scenarios_nonempty in H by exact Hne. fold T in H.
  assert (Hq : 1 <= n / T) by (apply Z.div_le_lower_bound; lia).
  apply for_each_length in H as (Ha & _ & _); [| lia].
  change (Py.len (@nil MultiHopScenario)) with 0 in Ha. fold T in Ha.
  rewrite Z.max_r in Ha by lia.
  pose proof (Z.div_mod n T ltac:(lia)) as Hdm.
  pose proof (Z.mod_pos_bound n T ltac:(lia)) as Hmod.
  split; [lia |]. intros Hrem. lia.
Qed.

(** X6: when the first triplet that does not have an empty
    ["overlapped_items"] list has no such property at all, and [n >= 1], the
    method raises [KeyError] on that key and leaves the world untouched. *)
Theorem missing_property_raises_key_error globals self n knowledge_graph
    (ps : list Persona) (cb : Callbacks) (w : World)
    (pre post : list Triplet) (a : Node) (r : Relationship) (b : Node) :
  find_two_nodes_single_rel (kg globals) relationship_condition =
    pre ++ (a, r, b) :: post ->
  Forall (fun t => rel_properties t.1.2 !! "overlapped_items" = Some []) pre ->
  rel_properties r !! "overlapped_items" = None ->
  1 <= n ->
  _generate_scenarios globals self n knowledge_graph ps cb w =
    (inl (KeyError "overlapped_items"), w).
Proof.
  intros Hsplit Hpre Hmissing Hn.
  rewrite generate_scenarios_nonempty
    by (rewrite Hsplit; destruct pre; discriminate).
  rewrite Hsplit at 2. rewrite for_each_app.
  rewrite (bind_inr _ _ _ _ _ (for_each_all_empty _ _ _ _ _ pre [] w Hpre)).
  cbn [for_each]. apply bind_inl. apply loop_body_missing; [| exact Hmissing].
  change (Py.len (@nil MultiHopScenario)) with 0. lia.
Qed.

(** X7: every scenario of the list a run returns was returned by a sampling
    call made with the quota, on combinations prepared from the two end
    nodes and the keyword pairs of a triplet of the query result whose
    ["overlapped_items"] is not empty, after the prompt answered on that
    triplet's themes. *)
Theorem scenarios_are_sampled globals self n knowledge_graph
    (ps : list Persona) (cb : Callbacks) (w : World)
    (scen : list MultiHopScenario) (w' : World) :
  let results := find_two_nodes_single_rel (kg globals) relationship_condition in
  _generate_scenarios globals self n knowledge_graph ps cb w = (inr scen, w') ->
  forall s, s ∈ scen ->
    exists t, t ∈ results /\
              drawn_from self ps cb (Z.max 1 (n / Py.len results)) t s.
Proof.
  intros results H.
  assert (Hne : results <> []).
  { intros Hnil. unfold results in Hnil.
    rewrite generate_scenarios_empty in H by exact Hnil. discriminate. }
  rewrite generate_scenarios_nonempty in H by exact Hne. fold results in H.
  apply (for_each_drawn self n ps cb (Z.max 1 (n / Py.len results))
           results results [] w scen w'); [auto | | exact H].
  intros s Hs. inversion Hs.
Qed.

(** X8: the quota and the number [T >= 1] of triplets: the quota is 1
    exactly when [n < 2 * T]; [T] quotas never exceed [max(n, T)]; and for
    [n >= T] they fall short of [n] by less than [T]. *)
Theorem quota_times_triplets (n : Z) (results : list Triplet) (w : World)
    (q : Z) (w' : World) :
  let T := Py.len results in
  num_sample_per_triplet n results w = (inr q, w') ->
  1 <= T /\
  (q = 1 <-> n < 2 * T) /\
  T * q <= Z.max n T /\
  (T <= n -> n - T < T * q).
Proof.
  intros T H.
  destruct results as [|t rest]; [discriminate |].
  rewrite quota_nonempty in H by discriminate. fold T in H.
  injection H as <- _.
  assert (HT : 1 <= T).
  { unfold T. rewrite len_cons. pose proof (len_nonneg rest). lia. }
  pose proof (Z.div_mod n T ltac:(lia)) as Hdm.
  pose proof (Z.mod_pos_bound n T ltac:(lia)) as Hmod.
  split; [exact HT |].
  destruct (Z.le_gt_cases (n / T) 1) as [Hle | Hgt].
  - rewrite Z.max_l by lia. split; [split; [intros _; nia | reflexivity] |].
    split; [lia |]. intros HTn. nia.
  - rewrite Z.max_r by lia. split; [split; [lia | intros Hlt; nia] |].
    split; [nia |]. intros HTn. nia.
Qed.

(** X9: the notebook's two subscripts on the list a run returns, with a
    sampling that returns at most the quota: [scenarios[4]] raises
    [IndexError] exactly when fewer than five scenarios were returned, so
    always when [n <= 4]; [scenarios[-1]] is the last scenario, and raises
    [IndexError] when [n <= 0]. *)
Theorem notebook_subscripts {L : ExternalLaws X} globals self n knowledge_graph
    (ps : list Persona) (cb : Callbacks) (w : World)
    (scen : list MultiHopScenario) (w' : World) :
  _generate_scenarios globals self n knowledge_graph ps cb w = (inr scen, w') ->
  (Py.index scen 4 = None <-> Py.len scen < 5) /\
  (n <= 4 -> Py.index scen 4 = None) /\
  Py.index scen (-1) = last scen /\
  (n <= 0 -> Py.index scen (-1) = None).
Proof.
  intros H. apply generate_scenarios_length in H as [_ Hlen].
  assert (H4 : Py.index scen 4 = None <-> Py.len scen < 5).
  { unfold Py.index. cbn [Z.ltb Z.compare orb].
    destruct (Z.leb_spec (Py.len scen) 4) as [Hle | Hgt].
    - split; [lia | reflexivity].
    - split; [| lia]. intros Hnone. apply lookup_ge_None in Hnone.
      unfold Py.len in Hgt. lia. }
  assert (Hlast : Py.index scen (-1) = last scen).
  { unfold Py.index. cbn [Z.ltb Z.compare].
    destruct scen as [|s0 rest]; [reflexivity |].
    pose proof (len_nonneg rest). rewrite len_cons.
    destruct (Z.ltb_spec (-1 + (1 + Py.len rest)) 0); [lia |].
    destruct (Z.leb_spec (1 + Py.len rest) (-1 + (1 + Py.len rest))); [lia |].
    cbn [orb]. rewrite last_lookup. f_equal. unfold Py.len. cbn [length]. lia. }
  split; [exact H4 |]. split; [intros Hn; apply H4; lia |].
  split; [exact Hlast |].
  intros Hn. rewrite Hlast.
  assert (Hnil : scen = []) by (apply len_zero_iff; pose proof (len_nonneg scen); lia).
  rewrite Hnil. reflexivity.
Qed.

End MethodProperties.

(** ** The properties on concrete runs *)

Section MoreRuns.
Import MyMultiHopQuery Reference.

Lemma themes_keep_first_occurrences_witness :
  Py.dict_keys items_ab = ["diversity"; "inclusion"] /\
  sublist (Py.dict_keys items_repeated) ["diversity"; "inclusion"; "diversity"] /\
  Py.dict_keys (items_ab ++ [("diversity", "diversity goals")]) =
    ["diversity"; "inclusion"].
Proof.
  split; [| split].
  - apply (proj1 (proj2 (themes_keep_first_occurrences items_ab))).
    refine (bool_decide_unpack _ _). vm_compute. exact I.
  - apply (proj1 (themes_keep_first_occurrences items_repeated)).
  - exact (proj2 (proj2 (proj2 (themes_keep_first_occurrences items_ab)))
             "diversity" "diversity goals").
Defined.

Lemma returns_empty_without_calls_witness :
  run kg_overlap 0 kg_overlap 3 = (inr [], world 3) /\
  run kg_all_empty 10 kg_all_empty 3 = (inr [], world 3).
Proof.
  split.
  - refine (returns_empty_without_calls {| kg := kg_overlap |} self 0 kg_overlap
              persona_list tt (world 3) _ _).
    + vm_compute. discriminate.
    + left. lia.
  - refine (returns_empty_without_calls {| kg := kg_all_empty |} self 10
              kg_all_empty persona_list tt (world 3) _ _).
    + vm_compute. discriminate.
    + right. repeat constructor.
Defined.

Lemma remaining_triplets_skipped_witness :
  exists scen w1,
    run kg_then_bare 1 kg_then_bare 5 = (inr scen, w1) /\ Py.len scen = 1.
Proof.
  destruct (for_each (loop_body self 1 persona_list tt 1)
              [(node_a, rel_overlap node_a node_b items_ab, node_b)] []
              (world 5)) as [[e | scen] w1] eqn:Hpre.
  - vm_compute in Hpre. discriminate Hpre.
  - assert (Hlen : Py.len scen = 1).
    { vm_compute in Hpre. injection Hpre as <- _. reflexivity. }
    exists scen, w1. split; [| exact Hlen].
    refine (remaining_triplets_skipped {| kg := kg_then_bare |} self 1
              kg_then_bare persona_list tt (world 5)
              [(node_a, rel_overlap node_a node_b items_ab, node_b)]
              [(node_a, rel_bare node_a node_c, node_c)] scen w1 _ _ Hpre _).
    + reflexivity.
    + vm_compute. discriminate.
    + lia.
Defined.

Lemma fewer_than_requested_witness :
  exists scen w',
    run kg_no_items 3 kg_no_items 5 = (inr scen, w') /\ Py.len scen < 3.
Proof.
  destruct (run kg_no_items 3 kg_no_items 5) as [[e | scen] w'] eqn:Hrun.
  - vm_compute in Hrun. discriminate Hrun.
  - exists scen, w'. split; [reflexivity |].
    refine (proj2 (fewer_than_requested (L := reference_laws)
                     {| kg := kg_no_items |} self 3 kg_no_items persona_list tt
                     (world 5) scen w' Hrun _) _).
    + vm_compute. discriminate.
    + vm_compute. discriminate.
Defined.

Lemma missing_property_raises_key_error_witness :
  run kg_bare 10 kg_bare 3 = (inl (KeyError "overlapped_items"), world 3).
Proof.
  refine (missing_property_raises_key_error {| kg := kg_bare |} self 10 kg_bare
            persona_list tt (world 3) [] [] node_a (rel_bare node_a node_b) node_b
            _ _ _ _).
  - reflexivity.
  - constructor.
  - vm_compute. reflexivity.
  - lia.
Defined.

Lemma scenarios_are_sampled_witness :
  exists scen w',
    run kg_overlap 2 kg_overlap 5 = (inr scen, w') /\
    Forall (fun s =>
              exists t,
                t ∈ find_two_nodes_single_rel kg_overlap relationship_condition /\
                drawn_from self persona_list tt 2 t s)
           scen.
Proof.
  destruct (run kg_overlap 2 kg_overlap 5) as [[e | scen] w'] eqn:Hrun.
  - vm_compute in Hrun. discriminate Hrun.
  - exists scen, w'. split; [reflexivity |]. apply Forall_forall.
    exact (scenarios_are_sampled {| kg := kg_overlap |} self 2 kg_overlap
             persona_list tt (world 5) scen w' Hrun).
Defined.

Lemma quota_times_triplets_witness :
  let results := find_two_nodes_single_rel kg_no_items relationship_condition in
  Py.len results * 5 <= Z.max 10 (Py.len results).
Proof.
  refine (proj1 (proj2 (proj2 (quota_times_triplets 10
            (find_two_nodes_single_rel kg_no_items relationship_condition)
            (world 3) 5 (world 3) _)))).
  vm_compute. reflexivity.
Defined.

Lemma notebook_subscripts_witness :
  exists scen w',
    run kg_overlap 1 kg_overlap 5 = (inr scen, w') /\ Py.index scen 4 = None.
Proof.
  destruct (run kg_overlap 1 kg_overlap 5) as [[e | scen] w'] eqn:Hrun.
  - vm_compute in Hrun. discriminate Hrun.
  - exists scen, w'. split; [reflexivity |].
    refine (proj1 (proj2 (notebook_subscripts (L := reference_laws)
                            {| kg := kg_overlap |} self 1 kg_overlap persona_list
                            tt (world 5) scen w' Hrun)) _).
    lia.
Defined.

End MoreRuns.

(** ** Lookups in the configuration file *)

Lemma assoc_elem {V} (key : string) (l : list (string * V)) (v : V) :
  NoDup l.*1 -> Workspace.assoc key l = Some v <-> (key, v) ∈ l.
Proof.
  induction l as [|[k0 v0] rest IH]; intros Hnd.
  - cbn. split; [discriminate | intros H; inversion H].
  - cbn [fmap list_fmap fst] in Hnd. apply NoDup_cons in Hnd as [Hk0 Hnd].
    cbn [Workspace.assoc]. destruct (String.eqb_spec key k0) as [-> | Hne].
    + split.
      * intros [= ->]. now left.
      * intros Hin. apply elem_of_cons in Hin as [[= ->] | Hin]; [reflexivity |].
        exfalso. apply Hk0. apply list_elem_of_fmap. now exists (k0, v).
    + rewrite (IH Hnd). split.
      * intros Hin. now right.
      * intros Hin. apply elem_of_cons in Hin as [[= -> ->] | Hin];
          [contradiction | exact Hin].
Qed.

(** X10: in the file no table header is written twice, no key is written
    twice under one header, and no key written under a header has the name
    of a sub-table that a deeper header declares; so [Workspace.get], the
    lookup among the keys written directly under a header, returns a value
    exactly when the file writes that key with that value under that
    header. *)
Theorem workspace_toml_lookup_iff_declared :
  NoDup Workspace.workspace_toml.*1 /\
  Forall (fun t => NoDup t.2.*1) Workspace.workspace_toml /\
  (forall header t key v,
     (header, t) ∈ Workspace.workspace_toml -> (key, v) ∈ t ->
     Workspace.declares_subtable header key = false) /\
  (forall table key (v : Workspace.Value),
     Workspace.get table key = Some v <->
     exists t, (table, t) ∈ Workspace.workspace_toml /\ (key, v) ∈ t).
Proof.
  assert (Hheaders : NoDup Workspace.workspace_toml.*1).
  { refine (bool_decide_unpack _ _). vm_compute. exact I. }
  assert (Hkeys : Forall (fun t => NoDup t.2.*1) Workspace.workspace_toml).
  { refine (bool_decide_unpack _ _). vm_compute. exact I. }
  split; [exact Hheaders |]. split; [exact Hkeys |]. split.
  - intros header t key v Ht Hv.
    assert (Hclear : Workspace.keys_clear_of_subtables = true)
      by (vm_compute; reflexivity).
    unfold Workspace.keys_clear_of_subtables in Hclear.
    rewrite forallb_forall in Hclear.
    apply list_elem_of_In in Ht. specialize (Hclear _ Ht). cbn [fst snd] in Hclear.
    rewrite forallb_forall in Hclear.
    apply list_elem_of_In in Hv. specialize (Hclear _ Hv). cbn [fst] in Hclear.
    apply negb_true_iff in Hclear. exact Hclear.
  - intros table key v. unfold Workspace.get. split.
    + destruct (Workspace.assoc table Workspace.workspace_toml) as [t|] eqn:Ht;
        [| discriminate].
      apply (assoc_elem _ _ _ Hheaders) in Ht. intros Hv. exists t.
      split; [exact Ht |].
      apply assoc_elem; [| exact Hv].
      apply (proj1 (Forall_forall _ _) Hkeys (table, t) Ht).
    + intros (t & Ht & Hv).
      rewrite (proj2 (assoc_elem table _ t Hheaders) Ht).
      apply assoc_elem; [| exact Hv].
      apply (proj1 (Forall_forall _ _) Hkeys (table, t) Ht).
Qed.
